(** * Gamepad teleoperation front-end of Berkeley Humanoid Lite

    A shallow embedding of
    [berkeley_humanoid_lite_lowlevel/policy/gamepad.py]: controller
    profiles and axis normalization, controller detection, the raw
    control state, the command computation and the polling loop.

    Python's [float] is IEEE 754 binary64; it is modelled by Rocq's
    primitive [float], which is the same format with the same
    round-to-nearest-even operations.  Python's [int] is [Z].  Exceptions
    are values of [py_exn] carried by [result]. *)

From Stdlib Require Import ZArith Floats Lia Bool Ascii String.
From stdpp Require Import gmap strings list.

Open Scope Z_scope.

(* ===================================================================== *)
(** * Python values: exceptions, floats, strings *)
(* ===================================================================== *)

(** The exceptions the module can meet.  [Exception_] stands for every
    other class deriving from [Exception] (the reader's [UnpluggedError],
    [OSError], [PermissionError], ...); [BaseException_] for the classes
    deriving from [BaseException] only ([KeyboardInterrupt], [SystemExit],
    [GeneratorExit]), which [except Exception] does not catch. *)
Inductive py_exn : Type :=
| ZeroDivisionError (msg : string)
| OverflowError (msg : string)
| Exception_ (cls msg : string)
| BaseException_ (cls msg : string).

(** [isinstance(e, Exception)] *)
Definition isinstance_Exception (e : py_exn) : bool :=
  match e with
  | BaseException_ _ _ => false
  | _ => true
  end.

(** [str(e)] *)
Definition exn_str (e : py_exn) : string :=
  match e with
  | ZeroDivisionError msg | OverflowError msg => msg
  | Exception_ _ msg | BaseException_ _ msg => msg
  end.

Inductive result (A : Type) : Type :=
| Ok (a : A)
| Raise (e : py_exn).
Arguments Ok {A} a.
Arguments Raise {A} e.

Definition result_bind {A B} (r : result A) (k : A -> result B) : result B :=
  match r with
  | Ok a => k a
  | Raise e => Raise e
  end.

Declare Scope result_scope.
Delimit Scope result_scope with result.
Notation "'do' x <- r ; k" := (result_bind r (fun x => k))
  (at level 10, x name, r at level 100, k at level 200) : result_scope.

Module PyFloat.

(** [float(z)] for an [int] [z]: the nearest binary64 value, ties to even;
    CPython raises [OverflowError] when the rounded magnitude does not fit
    the format. *)
Definition of_int (z : Z) : result float :=
  match binary_normalize prec emax z 0 false with
  | S754_infinity _ => Raise (OverflowError "int too large to convert to float")
  | sf => Ok (SF2Prim sf)
  end.

(** [z - y] with [z] an [int] and [y] a [float]: [float.__rsub__] converts
    the integer first. *)
Definition int_sub_float (z : Z) (y : float) : result float :=
  (do x <- of_int z; Ok (x - y)%float)%result.

(** [x / y] on floats: a zero divisor (of either sign) raises. *)
Definition truediv (x y : float) : result float :=
  if (y =? 0)%float then Raise (ZeroDivisionError "float division by zero")
  else Ok (x / y)%float.

(** A float that is neither an infinity nor a NaN. *)
Definition is_finite (x : float) : bool :=
  negb (is_nan x) && negb (is_infinity x).

End PyFloat.

(** [c.lower()] on an ASCII character. *)
Definition ascii_lower (c : ascii) : ascii :=
  let n := nat_of_ascii c in
  if ((65 <=? n)%nat && (n <=? 90)%nat)%bool then ascii_of_nat (n + 32) else c.

(** [s.lower()].  Device names are taken to be ASCII; the bytes of other
    characters are left as they are. *)
Fixpoint lower (s : string) : string :=
  match s with
  | EmptyString => EmptyString
  | String c s' => String (ascii_lower c) (lower s')
  end.

(** [needle in hay] on strings. *)
Fixpoint contains (needle hay : string) : bool :=
  String.prefix needle hay ||
  match hay with
  | EmptyString => false
  | String _ hay' => contains needle hay'
  end.

(** Python truthiness of [dict.get(key)] for an [int]-valued dict: a
    missing key gives [None] (falsy), [0] is falsy, every other integer is
    truthy. *)
Definition truthy (v : option Z) : bool :=
  match v with
  | Some z => negb (z =? 0)
  | None => false
  end.

(* ===================================================================== *)
(** * [XInputEntry]: control codes *)
(* ===================================================================== *)

Module XInputEntry.
Definition AXIS_X_L : string := "ABS_X".
Definition AXIS_Y_L : string := "ABS_Y".
Definition AXIS_TRIGGER_L : string := "ABS_Z".
Definition AXIS_X_R : string := "ABS_RX".
Definition AXIS_Y_R : string := "ABS_RY".
Definition AXIS_TRIGGER_R : string := "ABS_RZ".

Definition BTN_HAT_X : string := "ABS_HAT0X".
Definition BTN_HAT_Y : string := "ABS_HAT0Y".

Definition BTN_A : string := "BTN_SOUTH".
Definition BTN_B : string := "BTN_EAST".
Definition BTN_X : string := "BTN_NORTH".
Definition BTN_Y : string := "BTN_WEST".
Definition BTN_BUMPER_L : string := "BTN_TL".
Definition BTN_BUMPER_R : string := "BTN_TR".
Definition BTN_THUMB_L : string := "BTN_THUMBL".
Definition BTN_THUMB_R : string := "BTN_THUMBR".
Definition BTN_BACK : string := "BTN_SELECT".
Definition BTN_START : string := "BTN_START".

(** The control codes among [XInputEntry.__dict__.values()], in definition
    order.  (The class namespace also holds the module name, the docstring
    and two descriptors; [reset] stores them as keys too, but they are not
    event codes and nothing reads them.) *)
Definition values : list string :=
  [ AXIS_X_L; AXIS_Y_L; AXIS_TRIGGER_L; AXIS_X_R; AXIS_Y_R; AXIS_TRIGGER_R;
    BTN_HAT_X; BTN_HAT_Y;
    BTN_A; BTN_B; BTN_X; BTN_Y; BTN_BUMPER_L; BTN_BUMPER_R;
    BTN_THUMB_L; BTN_THUMB_R; BTN_BACK; BTN_START ].
End XInputEntry.

(* ===================================================================== *)
(** * [ControllerProfile] *)
(* ===================================================================== *)

Record ControllerProfile : Type := {
  name : string;
  center_value : float;
  max_range : float;
  invert : bool
}.

(** The constructor the [@dataclass] decorator generates: it stores its
    arguments; the class defines no [__post_init__], so nothing is checked.
    [invert] defaults to [True]. *)
Definition ControllerProfile_init (name : string) (center_value max_range : float)
    (invert : option bool) : result ControllerProfile :=
  Ok {| name := name; center_value := center_value; max_range := max_range;
        invert := default true invert |}.

(** [ControllerProfile.normalize_axis] *)
Definition normalize_axis (self : ControllerProfile) (raw_value : option Z)
    : result float :=
  match raw_value with
  | None => Ok 0%float
  | Some raw =>
      (do d <- PyFloat.int_sub_float raw (center_value self);
       do normalized <- PyFloat.truediv d (max_range self);
       Ok (if invert self then (- normalized)%float else normalized))%result
  end.

(** [CONTROLLER_PROFILES] *)
Definition dualsense : ControllerProfile :=
  {| name := "Sony DualSense (PS5)";
     center_value := 128; max_range := 128; invert := true |}.

Definition xinput : ControllerProfile :=
  {| name := "XInput/Xbox Controller";
     center_value := 0; max_range := 32768; invert := true |}.

(* ===================================================================== *)
(** * The external collaborators: devices, events, readers *)
(* ===================================================================== *)

(** A device of the [inputs] library, as far as the module looks at it. *)
Record InputDevice : Type := {
  device_name : string
}.

(** A raw input event. *)
Record event : Type := {
  code : string;
  state : Z
}.

(** What one call of [device.read()] or [get_gamepad()] gives when it is
    iterated: the events it yields and then, possibly, the exception that
    ends the iteration.  A read that raises at once yields nothing. *)
Record read_outcome : Type := {
  yielded : list event;
  failure : option py_exn
}.

(** The two read primitives, as they answer in one polling cycle. *)
Record reader : Type := {
  device_read : InputDevice -> read_outcome;
  get_gamepad : read_outcome
}.

(* ===================================================================== *)
(** * [Se2Gamepad] *)
(* ===================================================================== *)

(** The [commands] dict: four fixed keys. *)
Record Commands : Type := {
  velocity_x : float;
  velocity_y : float;
  velocity_yaw : float;
  mode_switch : Z
}.

Record Se2Gamepad : Type := {
  stick_sensitivity : float;
  dead_zone : float;
  debug : bool;
  _stopped : bool;
  _states : gmap string Z;
  commands : Commands;
  _gamepad_device : option InputDevice;
  _controller_profile : ControllerProfile
}.

Definition with_states (st : gmap string Z) (self : Se2Gamepad) : Se2Gamepad :=
  {| stick_sensitivity := stick_sensitivity self; dead_zone := dead_zone self;
     debug := debug self; _stopped := _stopped self; _states := st;
     commands := commands self; _gamepad_device := _gamepad_device self;
     _controller_profile := _controller_profile self |}.

Definition with_commands (c : Commands) (self : Se2Gamepad) : Se2Gamepad :=
  {| stick_sensitivity := stick_sensitivity self; dead_zone := dead_zone self;
     debug := debug self; _stopped := _stopped self; _states := _states self;
     commands := c; _gamepad_device := _gamepad_device self;
     _controller_profile := _controller_profile self |}.

Definition with_stopped (b : bool) (self : Se2Gamepad) : Se2Gamepad :=
  {| stick_sensitivity := stick_sensitivity self; dead_zone := dead_zone self;
     debug := debug self; _stopped := b; _states := _states self;
     commands := commands self; _gamepad_device := _gamepad_device self;
     _controller_profile := _controller_profile self |}.

(** ** Methods: state passing with exceptions

    A method body runs on the object and either returns a value or raises;
    in both cases the object keeps the writes made so far. *)
Definition method (A : Type) : Type := Se2Gamepad -> result A * Se2Gamepad.

Definition method_ret {A} (a : A) : method A := fun self => (Ok a, self).

Definition method_raise {A} (e : py_exn) : method A := fun self => (Raise e, self).

Definition method_bind {A B} (m : method A) (k : A -> method B) : method B :=
  fun self =>
    match m self with
    | (Ok a, self') => k a self'
    | (Raise e, self') => (Raise e, self')
    end.

Definition method_lift {A} (r : result A) : method A := fun self => (r, self).

Declare Scope method_scope.
Delimit Scope method_scope with method.
Notation "'do' x <- m ; k" := (method_bind m (fun x => k))
  (at level 10, x name, m at level 100, k at level 200) : method_scope.
Notation "m ;; k" := (method_bind m (fun _ => k))
  (at level 100, k at level 200, right associativity) : method_scope.

(** [self._states.get(key)] *)
Definition states_get (key : string) : method (option Z) :=
  fun self => (Ok (_states self !! key), self).

(** [self._states[key] = value] *)
Definition states_set (key : string) (value : Z) : method unit :=
  fun self => (Ok tt, with_states (<[key := value]> (_states self)) self).

(** [self.commands["velocity_x"] = v], and the three other keys *)
Definition set_velocity_x (v : float) : method unit :=
  fun self =>
    let c := commands self in
    (Ok tt, with_commands {| velocity_x := v; velocity_y := velocity_y c;
                             velocity_yaw := velocity_yaw c;
                             mode_switch := mode_switch c |} self).

Definition set_velocity_y (v : float) : method unit :=
  fun self =>
    let c := commands self in
    (Ok tt, with_commands {| velocity_x := velocity_x c; velocity_y := v;
                             velocity_yaw := velocity_yaw c;
                             mode_switch := mode_switch c |} self).

Definition set_velocity_yaw (v : float) : method unit :=
  fun self =>
    let c := commands self in
    (Ok tt, with_commands {| velocity_x := velocity_x c; velocity_y := velocity_y c;
                             velocity_yaw := v;
                             mode_switch := mode_switch c |} self).

Definition set_mode_switch (m : Z) : method unit :=
  fun self =>
    let c := commands self in
    (Ok tt, with_commands {| velocity_x := velocity_x c; velocity_y := velocity_y c;
                             velocity_yaw := velocity_yaw c;
                             mode_switch := m |} self).

(** ** [_detect_controller]

    Returns the lines printed, the bound device (or [None]) and the
    profile.  [devices] is the sequence the [inputs] library enumerates. *)
Fixpoint _detect_controller (devices : list InputDevice)
    : list string * (option InputDevice * ControllerProfile) :=
  match devices with
  | [] =>
      (["No specific controller detected, using default gamepad with XInput profile"],
       (None, xinput))
  | device :: rest =>
      let name_lc := lower (device_name device) in
      let xbox_check :=
        if contains "xbox" name_lc || contains "xinput" name_lc
        then (["Detected gamepad: " +:+ device_name device], (Some device, xinput))
        else _detect_controller rest in
      if contains "dualsense" name_lc || contains "sony" name_lc then
        if negb (contains "motion" name_lc) && negb (contains "touchpad" name_lc)
        then (["Detected gamepad: " +:+ device_name device], (Some device, dualsense))
        else xbox_check
      else xbox_check
  end.

(** ** [reset] *)
Definition reset_states : gmap string Z :=
  list_to_map ((fun key => (key, 0)) <$> XInputEntry.values).

Definition reset : method unit :=
  fun self => (Ok tt, with_states reset_states self).

(** ** [__init__]

    [None] for an argument means the default of the signature. *)
Definition zero_commands : Commands :=
  {| velocity_x := 0; velocity_y := 0; velocity_yaw := 0; mode_switch := 0 |}.

Definition Se2Gamepad_init (devices : list InputDevice)
    (stick_sensitivity dead_zone : option float) (debug : option bool)
    : Se2Gamepad * list string :=
  let '(lines, (device, profile)) := _detect_controller devices in
  ({| stick_sensitivity := default 1%float stick_sensitivity;
      dead_zone := default 0x1.47ae147ae147bp-7%float dead_zone;
      debug := default false debug;
      _stopped := false;
      _states := reset_states;
      commands := zero_commands;
      _gamepad_device := device;
      _controller_profile := profile |},
   lines ++ ["Using controller: " +:+ name profile]).

(** ** [stop] *)
Definition stop (self : Se2Gamepad) : Se2Gamepad * list string :=
  (with_stopped true self, ["Gamepad stopping..."]).

(** ** [_normalize_and_apply_deadzone] *)
Definition _normalize_and_apply_deadzone (raw_value : option Z) : method float :=
  fun self =>
    (result_bind (normalize_axis (_controller_profile self) raw_value)
       (fun normalized =>
          let normalized :=
            if (abs normalized <? dead_zone self)%float then 0%float else normalized in
          Ok (normalized * stick_sensitivity self)%float),
     self).

(** ** [_update_command_buffer] *)
Definition _update_command_buffer : method unit :=
  (do raw_velocity_x <- states_get XInputEntry.AXIS_Y_L;
   do raw_velocity_y <- states_get XInputEntry.AXIS_X_R;
   do raw_velocity_yaw <- states_get XInputEntry.AXIS_X_L;
   do vx <- _normalize_and_apply_deadzone raw_velocity_x;
   set_velocity_x vx;;
   do vy <- _normalize_and_apply_deadzone raw_velocity_y;
   set_velocity_y vy;;
   do vyaw <- _normalize_and_apply_deadzone raw_velocity_yaw;
   set_velocity_yaw vyaw;;
   let mode_switch := 0 in
   do btn_a <- states_get XInputEntry.BTN_A;
   do bumper_r <- states_get XInputEntry.BTN_BUMPER_R;
   let mode_switch := if truthy btn_a && truthy bumper_r then 3 else mode_switch in
   do bumper_l <- states_get XInputEntry.BTN_BUMPER_L;
   let mode_switch := if truthy btn_a && truthy bumper_l then 2 else mode_switch in
   do btn_x <- states_get XInputEntry.BTN_X;
   do thumb_l <- states_get XInputEntry.BTN_THUMB_L;
   do thumb_r <- states_get XInputEntry.BTN_THUMB_R;
   let mode_switch :=
     if truthy btn_x || truthy thumb_l || truthy thumb_r then 1 else mode_switch in
   set_mode_switch mode_switch)%method.

(** ** [advance] *)

(** [for event in events: self._states[event.code] = event.state] *)
Fixpoint apply_events (events : list event) : method unit :=
  match events with
  | [] => method_ret tt
  | ev :: rest => (states_set (code ev) (state ev);; apply_events rest)%method
  end.

Definition read_events (env : reader) : method read_outcome :=
  fun self =>
    match _gamepad_device self with
    | Some device => (Ok (device_read env device), self)
    | None => (Ok (get_gamepad env), self)
    end.

(** The body of the [try] block. *)
Definition advance_body (env : reader) : method unit :=
  (do events <- read_events env;
   apply_events (yielded events);;
   match failure events with
   | Some e => method_raise e
   | None => _update_command_buffer
   end)%method.

(** The outcome of one call: the object afterwards, the lines printed, and
    the exception that leaves the call, if any. *)
Record call_outcome : Type := {
  after : Se2Gamepad;
  printed : list string;
  propagated : option py_exn
}.

Definition advance (env : reader) (self : Se2Gamepad) : call_outcome :=
  match advance_body env self with
  | (Ok _, self') => {| after := self'; printed := []; propagated := None |}
  | (Raise e, self') =>
      if isinstance_Exception e then
        {| after := self';
           printed := if debug self' then ["Gamepad error: " +:+ exn_str e] else [];
           propagated := None |}
      else {| after := self'; printed := []; propagated := Some e |}
  end.

(** ** [run_forever]

    [run] starts this loop in a thread of its own.  What reaches the loop
    from outside in one iteration is whether [stop()] was called before
    the loop condition is evaluated, and what the read primitives answer;
    a script lists that for a finite number of iterations. *)
Record tick : Type := {
  stop_called : bool;
  env_of : reader
}.

Inductive loop_status : Type :=
| Running            (* the script is used up, the loop would go on *)
| Stopped            (* the loop condition saw the stop signal *)
| Crashed (e : py_exn).

Record loop_outcome : Type := {
  final : Se2Gamepad;
  output : list string;
  iterations : nat;      (* completed calls of [advance] *)
  status : loop_status
}.

Fixpoint run_forever (script : list tick) (self : Se2Gamepad) : loop_outcome :=
  match script with
  | [] => {| final := self; output := []; iterations := 0; status := Running |}
  | t :: script' =>
      let self := if stop_called t then with_stopped true self else self in
      if _stopped self then
        {| final := self; output := []; iterations := 0; status := Stopped |}
      else
        let r := advance (env_of t) self in
        match propagated r with
        | Some e =>
            {| final := after r; output := printed r; iterations := 0;
               status := Crashed e |}
        | None =>
            let l := run_forever script' (after r) in
            {| final := final l; output := printed r ++ output l;
               iterations := S (iterations l); status := status l |}
        end
  end.


(* ===================================================================== *)
(** * A bounded check over consecutive integers *)
(* ===================================================================== *)

(** [check_from f lo n]: [f] holds at the [n] integers from [lo] upwards.
    Used to settle a property of the built-in profiles on the sample range
    of their devices by evaluation. *)
Fixpoint check_from (f : Z -> bool) (lo : Z) (n : nat) : bool :=
  match n with
  | O => true
  | S n' => f lo && check_from f (lo + 1) n'
  end.
(* ===================================================================== *)
(** * Facts about binary64 arithmetic *)
(* ===================================================================== *)

Module FloatFacts.

Lemma SF_of_is_finite (x : float) :
  PyFloat.is_finite x = true ->
  (exists s, Prim2SF x = S754_zero s) \/
  (exists s m e, Prim2SF x = S754_finite s m e).
Proof.
  unfold PyFloat.is_finite, is_nan, is_infinity.
  rewrite !FloatAxioms.eqb_spec, abs_spec.
  destruct (Prim2SF x) as [s|s| |s m e]; cbn; try discriminate; eauto.
  destruct s; discriminate.
Qed.

(** [x - x] is [+0.0] for every finite [x]. *)
Lemma sub_diag (x : float) :
  PyFloat.is_finite x = true -> (x - x)%float = 0%float.
Proof.
  intros Hx. apply Prim2SF_inj. rewrite sub_spec.
  destruct (SF_of_is_finite x Hx) as [[s ->]|(s & m & e & ->)].
  - destruct s; reflexivity.
  - unfold SF64sub, SFsub. rewrite Z.sub_diag. reflexivity.
Qed.

Lemma SFcompare_swap (x y : spec_float) :
  SFcompare y x = option_map CompOpp (SFcompare x y).
Proof.
  destruct x as [sx|sx| |sx mx ex], y as [sy|sy| |sy my ey]; cbn;
    try reflexivity; try (destruct sx; reflexivity); try (destruct sy; reflexivity);
    try (destruct sx, sy; reflexivity).
  destruct sx, sy; cbn; try reflexivity;
    rewrite (Z.compare_antisym ex ey); destruct (ex ?= ey); cbn; try reflexivity;
    rewrite (Pos.compare_cont_antisym mx my Eq); reflexivity.
Qed.

(** [x <= y] excludes [y < x] (both are false on a NaN). *)
Lemma leb_not_ltb (x y : float) :
  (x <=? y)%float = true -> (y <? x)%float = false.
Proof.
  rewrite leb_spec, ltb_spec. unfold SFleb, SFltb.
  rewrite (SFcompare_swap (Prim2SF x) (Prim2SF y)).
  destruct (SFcompare (Prim2SF x) (Prim2SF y)) as [[]|]; cbn; congruence.
Qed.

(** A positive divisor is not zero, and [0.0 / x] is [+0.0]. *)
Lemma zero_div (x : float) :
  (0 <? x)%float = true ->
  (x =? 0)%float = false /\ (0 / x)%float = 0%float.
Proof.
  rewrite ltb_spec, FloatAxioms.eqb_spec.
  change (Prim2SF 0) with (S754_zero false). intros H. split.
  - destruct (Prim2SF x) as [s|s| |s m e]; cbn in *; try discriminate;
      destruct s; try discriminate; reflexivity.
  - apply Prim2SF_inj. rewrite div_spec. change (Prim2SF 0) with (S754_zero false).
    destruct (Prim2SF x) as [s|s| |s m e]; cbn in *; try discriminate;
      destruct s; try discriminate; reflexivity.
Qed.

(** [0.0 * s] compares equal to zero for every finite [s] ... *)
Lemma zero_mul_finite (s : float) :
  PyFloat.is_finite s = true -> ((0 * s) =? 0)%float = true.
Proof.
  intros Hs. rewrite FloatAxioms.eqb_spec, mul_spec.
  change (Prim2SF 0) with (S754_zero false).
  destruct (SF_of_is_finite s Hs) as [[b ->]|(b & m & e & ->)]; reflexivity.
Qed.

(** ... and is [+0.0] itself when [s] is positive. *)
Lemma zero_mul_pos (s : float) :
  PyFloat.is_finite s = true -> (0 <? s)%float = true -> (0 * s)%float = 0%float.
Proof.
  intros Hs Hp. apply Prim2SF_inj. rewrite mul_spec. revert Hp. rewrite ltb_spec.
  change (Prim2SF 0) with (S754_zero false).
  destruct (SF_of_is_finite s Hs) as [[b ->]|(b & m & e & ->)]; cbn; try discriminate.
  destruct b; cbn; try discriminate; reflexivity.
Qed.



(** ** Conversion of integers

    Integers of magnitude below [2^53] convert exactly: the conversion
    raises nothing and gives a finite float. *)

Lemma digits2_pos_iter (m k : positive) :
  digits2_pos (Pos.iter xO m k) = (digits2_pos m + k)%positive.
Proof.
  induction k as [|k IH] using Pos.peano_ind.
  - cbn. lia.
  - rewrite Pos.iter_succ. cbn. rewrite IH. lia.
Qed.

Lemma digits2_pos_bound (m : positive) (n : Z) :
  0 <= n -> Zpos m < 2 ^ n -> Zpos (digits2_pos m) <= n.
Proof.
  revert n. induction m as [m IH|m IH|]; intros n Hn Hlt; cbn [digits2_pos].
  - assert (n <> 0) by (intros ->; cbn in Hlt; lia).
    replace n with (Z.succ (n - 1)) in Hlt by lia. rewrite Z.pow_succ_r in Hlt by lia.
    specialize (IH (n - 1)). lia.
  - assert (n <> 0) by (intros ->; cbn in Hlt; lia).
    replace n with (Z.succ (n - 1)) in Hlt by lia. rewrite Z.pow_succ_r in Hlt by lia.
    specialize (IH (n - 1)). lia.
  - assert (n <> 0) by (intros ->; cbn in Hlt; lia). lia.
Qed.

Lemma binary_round_aux_canonical (s : bool) (m : positive) (e : Z) :
  Zpos (digits2_pos m) = 53 -> -1074 <= e <= 971 ->
  binary_round_aux prec emax s (Zpos m) e loc_Exact = S754_finite s m e.
Proof.
  intros Hd He.
  assert (Hn : fexp prec emax (Zdigits2 (Zpos m) + e) - e = 0).
  { unfold fexp, SpecFloat.emin, prec, emax. cbn [Zdigits2]. rewrite Hd. lia. }
  unfold binary_round_aux, shr_fexp. rewrite Hn. cbn [shr shr_record_of_loc].
  cbn [shr_m loc_of_shr_record round_nearest_even].
  rewrite Hn. cbn [shr shr_record_of_loc shr_m].
  replace (e <=? emax - prec) with true; [reflexivity|].
  symmetry. apply Z.leb_le. unfold emax, prec. lia.
Qed.

Lemma binary_round_small (s : bool) (m : positive) :
  Zpos m < 2 ^ 53 ->
  exists m' e', binary_round prec emax s m 0 = S754_finite s m' e'
                /\ valid_binary (S754_finite s m' e') = true.
Proof.
  intros Hm. pose proof (digits2_pos_bound m 53 ltac:(lia) Hm) as Hd.
  assert (Hv : forall m' e', Zpos (digits2_pos m') = 53 -> -1074 <= e' <= 971 ->
            valid_binary (S754_finite s m' e') = true).
  { intros m' e' Hd' He'. unfold SpecFloat.valid_binary, bounded, canonical_mantissa.
    apply andb_true_intro. split.
    - apply Z.eqb_eq. unfold fexp, SpecFloat.emin, prec, emax. rewrite Hd'. lia.
    - apply Z.leb_le. unfold emax, prec. lia. }
  unfold binary_round.
  replace (fexp prec emax (Z.pos (digits2_pos m) + 0)) with (Z.pos (digits2_pos m) - 53)
    by (unfold fexp, SpecFloat.emin, prec, emax; lia).
  unfold shl_align. rewrite Z.sub_0_r.
  destruct (Z.pos (digits2_pos m) - 53) as [|k|k] eqn:Hk; try lia.
  - rewrite binary_round_aux_canonical by lia. eauto with lia.
  - assert (Hd' : Zpos (digits2_pos (Pos.iter xO m k)) = 53)
      by (rewrite digits2_pos_iter; lia).
    rewrite binary_round_aux_canonical by lia.
    do 2 eexists. split; [reflexivity|]. apply Hv; lia.
Qed.

Lemma is_finite_of_SF (x : float) (s : bool) (m : positive) (e : Z) :
  Prim2SF x = S754_finite s m e -> PyFloat.is_finite x = true.
Proof.
  intros H. unfold PyFloat.is_finite, is_nan, is_infinity.
  rewrite !FloatAxioms.eqb_spec, abs_spec, H. unfold SFeqb. cbn.
  destruct s; rewrite Z.compare_refl, Pos.compare_cont_refl; reflexivity.
Qed.

Lemma of_int_small (z : Z) :
  - 2 ^ 53 < z < 2 ^ 53 ->
  exists r, PyFloat.of_int z = Ok r /\ PyFloat.is_finite r = true.
Proof.
  intros Hz. unfold PyFloat.of_int, binary_normalize.
  destruct z as [|m|m].
  - exists 0%float. split; reflexivity.
  - destruct (binary_round_small false m ltac:(lia)) as (m' & e' & -> & Hv).
    eexists. split; [reflexivity|].
    eapply is_finite_of_SF. apply Prim2SF_SF2Prim, Hv.
  - destruct (binary_round_small true m ltac:(lia)) as (m' & e' & -> & Hv).
    eexists. split; [reflexivity|].
    eapply is_finite_of_SF. apply Prim2SF_SF2Prim, Hv.
Qed.


(** ** Rounding never exceeds a representable bound *)

Lemma digits2_pos_gt (m : positive) : Zpos m < 2 ^ Zpos (digits2_pos m).
Proof.
  induction m as [m IH|m IH|]; cbn [digits2_pos]; [| |reflexivity];
    rewrite Pos2Z.inj_succ, Z.pow_succ_r by lia; lia.
Qed.

Lemma shr_1_spec (P k : Z) (mrs : shr_record) :
  0 <= P -> 0 <= k ->
  shr_m mrs = P / 2 ^ k ->
  (P mod 2 ^ k = 0 -> shr_r mrs = false /\ shr_s mrs = false) ->
  shr_m (shr_1 mrs) = P / 2 ^ (k + 1)
  /\ (P mod 2 ^ (k + 1) = 0 -> shr_r (shr_1 mrs) = false /\ shr_s (shr_1 mrs) = false).
Proof.
  intros HP Hk Hm Hrs.
  assert (H2k : 0 < 2 ^ k) by (apply Z.pow_pos_nonneg; lia).
  assert (Hdiv : P / 2 ^ (k + 1) = (P / 2 ^ k) / 2).
  { rewrite Z.pow_add_r, Z.pow_1_r by lia. rewrite Z.div_div by lia. reflexivity. }
  assert (Hq : 0 <= P / 2 ^ k) by (apply Z.div_pos; lia).
  assert (Hmod : P mod 2 ^ (k + 1) = 0 -> P mod 2 ^ k = 0 /\ (P / 2 ^ k) mod 2 = 0).
  { intros H0. rewrite Z.pow_add_r, Z.pow_1_r in H0 by lia.
    rewrite Z.rem_mul_r in H0 by lia.
    pose proof (Z.mod_pos_bound P (2 ^ k) H2k).
    pose proof (Z.mod_pos_bound (P / 2 ^ k) 2 ltac:(lia)). nia. }
  destruct mrs as [m r s]. cbn [shr_m shr_r shr_s] in *. subst m.
  rewrite Hdiv.
  destruct (P / 2 ^ k) as [|q|q] eqn:Eq; [| |lia].
  - cbn. split; [reflexivity|]. intros H0. destruct (Hmod H0) as [H1 _].
    destruct (Hrs H1) as [-> ->]. split; reflexivity.
  - destruct q as [q|q|]; cbn [shr_1 shr_m shr_r shr_s].
    + split; [rewrite Pos2Z.inj_xI; apply Z.div_unique with 1; lia|].
      intros H0. destruct (Hmod H0) as [_ H2]. rewrite Pos2Z.inj_xI in H2.
      exfalso. replace (2 * Z.pos q + 1) with (1 + Z.pos q * 2) in H2 by lia.
      rewrite Z.mod_add in H2 by lia. discriminate H2.
    + split; [rewrite Pos2Z.inj_xO; apply Z.div_unique with 0; lia|].
      intros H0. destruct (Hmod H0) as [H1 _]. destruct (Hrs H1) as [-> ->].
      split; reflexivity.
    + split; [reflexivity|]. intros H0. destruct (Hmod H0) as [_ H2]. discriminate H2.
Qed.

Lemma shr_iter_spec (P : Z) (n : positive) :
  0 <= P ->
  forall (k : Z) (mrs : shr_record),
    0 <= k ->
    shr_m mrs = P / 2 ^ k ->
    (P mod 2 ^ k = 0 -> shr_r mrs = false /\ shr_s mrs = false) ->
    shr_m (SpecFloat.iter_pos shr_1 n mrs) = P / 2 ^ (k + Zpos n)
    /\ (P mod 2 ^ (k + Zpos n) = 0 ->
        shr_r (SpecFloat.iter_pos shr_1 n mrs) = false /\ shr_s (SpecFloat.iter_pos shr_1 n mrs) = false).
Proof.
  intros HP. induction n as [n IH|n IH|]; intros k mrs Hk Hm Hrs; cbn [SpecFloat.iter_pos].
  - destruct (shr_1_spec P k mrs HP Hk Hm Hrs) as [Hm1 Hrs1].
    destruct (IH (k + 1) (shr_1 mrs) ltac:(lia) Hm1 Hrs1) as [Hm2 Hrs2].
    destruct (IH (k + 1 + Zpos n) _ ltac:(lia) Hm2 Hrs2) as [Hm3 Hrs3].
    replace (k + Z.pos n~1) with (k + 1 + Z.pos n + Z.pos n) by lia. auto.
  - destruct (IH k mrs Hk Hm Hrs) as [Hm2 Hrs2].
    destruct (IH (k + Zpos n) _ ltac:(lia) Hm2 Hrs2) as [Hm3 Hrs3].
    replace (k + Z.pos n~0) with (k + Z.pos n + Z.pos n) by lia. auto.
  - apply shr_1_spec; assumption.
Qed.

(** Shifting an exact mantissa right by [n] places: the quotient, and an
    exact location when nothing is shifted out. *)
Lemma shr_exact_spec (m e n : Z) :
  0 <= m ->
  let N := Z.max n 0 in
  snd (shr (shr_record_of_loc m loc_Exact) e n) = e + N
  /\ shr_m (fst (shr (shr_record_of_loc m loc_Exact) e n)) = m / 2 ^ N
  /\ (m mod 2 ^ N = 0 ->
      loc_of_shr_record (fst (shr (shr_record_of_loc m loc_Exact) e n)) = loc_Exact).
Proof.
  intros Hm N. subst N. destruct n as [|n|n]; cbn [shr fst snd shr_record_of_loc shr_m].
  - cbn. rewrite Z.div_1_r. repeat split; lia.
  - rewrite Z.max_l by lia.
    destruct (shr_iter_spec m n Hm 0 {| shr_m := m; shr_r := false; shr_s := false |})
      as [H1 H2]; [lia|cbn; rewrite Z.div_1_r; reflexivity|auto|].
    cbn [Z.add] in H1, H2. split; [reflexivity|]. split; [exact H1|].
    intros H0. destruct (H2 H0) as [Hr Hs].
    destruct (SpecFloat.iter_pos shr_1 n _) as [m' r' s']. cbn in Hr, Hs. subst. reflexivity.
  - cbn. rewrite Z.div_1_r. repeat split; lia.
Qed.

Lemma round_nearest_even_bounds (m : Z) (l : location) :
  m <= round_nearest_even m l <= m + 1
  /\ (l = loc_Exact -> round_nearest_even m l = m).
Proof.
  destruct l as [|[]]; cbn; try destruct (Z.even m); repeat split; try lia; discriminate.
Qed.

Lemma shr_fexp_step (m e : Z) (ms : positive) (es : Z) :
  0 <= m ->
  fexp prec emax (Zpos (digits2_pos ms) + es) = es ->
  e <= es ->
  m <= Zpos ms * 2 ^ (es - e) ->
  let r := shr_fexp prec emax m e loc_Exact in
  let N := snd r - e in
  0 <= N /\ snd r <= es
  /\ shr_m (fst r) = m / 2 ^ N
  /\ (m mod 2 ^ N = 0 -> loc_of_shr_record (fst r) = loc_Exact).
Proof.
  intros Hm Hcan He Hle r N. subst N r. unfold shr_fexp.
  set (n := fexp prec emax (Zdigits2 m + e) - e).
  destruct (shr_exact_spec m e n Hm) as (He' & Hm' & Hloc).
  rewrite He'. replace (e + Z.max n 0 - e) with (Z.max n 0) by lia.
  split; [lia|]. split; [|split; assumption].
  destruct (Z.max_spec n 0) as [[Hn ->]|[Hn ->]]; [lia|].
  assert (Hdig : Zdigits2 m + e <= Zpos (digits2_pos ms) + es).
  { destruct m as [|q|q]; cbn [Zdigits2]; [lia| |lia].
    pose proof (digits2_pos_gt ms) as Hms.
    assert (Hq : Zpos q < 2 ^ (Zpos (digits2_pos ms) + (es - e))).
    { rewrite Z.pow_add_r by lia.
      assert (0 < 2 ^ (es - e)) by (apply Z.pow_pos_nonneg; lia). nia. }
    pose proof (digits2_pos_bound q (Zpos (digits2_pos ms) + (es - e)) ltac:(lia) Hq). lia. }
  subst n. revert Hcan Hdig. unfold fexp. lia.
Qed.

Lemma binary_round_aux_le (sx : bool) (p ms : positive) (E es : Z) :
  fexp prec emax (Zpos (digits2_pos ms) + es) = es ->
  es <= 971 ->
  E <= es ->
  Zpos p <= Zpos ms * 2 ^ (es - E) ->
  binary_round_aux prec emax sx (Zpos p) E loc_Exact = S754_zero sx
  \/ exists m3 e3,
       binary_round_aux prec emax sx (Zpos p) E loc_Exact = S754_finite sx m3 e3
       /\ (e3 < es \/ (e3 = es /\ (m3 <= ms)%positive)).
Proof.
  intros Hcan Hes HE HP. unfold binary_round_aux.
  destruct (shr_fexp_step (Zpos p) E ms es ltac:(lia) Hcan HE HP)
    as (HN1 & He1 & Hm1 & Hloc1).
  destruct (shr_fexp prec emax (Zpos p) E loc_Exact) as [mrs1 e1].
  cbn [fst snd] in HN1, He1, Hm1, Hloc1.
  set (N1 := e1 - E) in *.
  set (D1 := 2 ^ N1) in *.
  assert (HD1 : 0 < D1) by (apply Z.pow_pos_nonneg; lia).
  set (S1 := Zpos ms * 2 ^ (es - e1)).
  assert (HS1 : Zpos ms * 2 ^ (es - E) = S1 * D1).
  { subst S1 D1 N1. rewrite <- Z.mul_assoc, <- Z.pow_add_r by lia. f_equal. f_equal. lia. }
  rewrite HS1 in HP.
  destruct (round_nearest_even_bounds (shr_m mrs1) (loc_of_shr_record mrs1))
    as [Hrne Hexact].
  set (m2 := round_nearest_even (shr_m mrs1) (loc_of_shr_record mrs1)) in *.
  pose proof (Z.div_mod (Zpos p) D1 ltac:(lia)) as Hdm.
  pose proof (Z.mod_pos_bound (Zpos p) D1 HD1) as Hrem.
  assert (Hm1pos : 0 <= shr_m mrs1) by (rewrite Hm1; apply Z.div_pos; lia).
  assert (Hm2 : 0 <= m2 <= S1).
  { split; [lia|].
    destruct (Z.eq_dec (Zpos p mod D1) 0) as [H0|H0].
    - rewrite (Hexact (Hloc1 H0)). rewrite Hm1. nia.
    - assert (shr_m mrs1 < S1) by (rewrite Hm1; nia). lia. }
  assert (Hm2' : m2 <= Zpos ms * 2 ^ (es - e1)) by (subst S1; lia).
  destruct (shr_fexp_step m2 e1 ms es ltac:(lia) Hcan He1 Hm2')
    as (HN3 & He3 & Hm3 & _).
  destruct (shr_fexp prec emax m2 e1 loc_Exact) as [mrs3 e3].
  cbn [fst snd] in HN3, He3, Hm3.
  assert (HD3 : 0 < 2 ^ (e3 - e1)) by (apply Z.pow_pos_nonneg; lia).
  assert (Hm3pos : 0 <= shr_m mrs3) by (rewrite Hm3; apply Z.div_pos; lia).
  destruct (shr_m mrs3) as [|m3|m3] eqn:Em3; [left; reflexivity| |lia].
  right. exists m3, e3.
  replace (e3 <=? emax - prec) with true
    by (symmetry; apply Z.leb_le; unfold emax, prec; lia).
  split; [reflexivity|].
  destruct (Z.eq_dec e3 es) as [->|Hne]; [right; split; [reflexivity|]|left; lia].
  pose proof (Z.div_mod m2 (2 ^ (es - e1)) ltac:(lia)) as Hdm3.
  pose proof (Z.mod_pos_bound m2 (2 ^ (es - e1)) HD3) as Hrem3.
  rewrite <- Hm3 in Hdm3. subst S1.
  assert (Zpos m3 <= Zpos ms) by nia. lia.
Qed.

Lemma valid_finite_inv (s : bool) (m : positive) (e : Z) :
  valid_binary (S754_finite s m e) = true ->
  fexp prec emax (Zpos (digits2_pos m) + e) = e /\ e <= 971
  /\ Zpos m < 2 ^ 53.
Proof.
  unfold SpecFloat.valid_binary, bounded, canonical_mantissa.
  intros H. apply andb_prop in H. destruct H as [H1 H2].
  apply Z.eqb_eq in H1. apply Z.leb_le in H2. unfold emax, prec in H2.
  split; [exact H1|]. split; [lia|].
  assert (Hd : Zpos (digits2_pos m) <= 53)
    by (revert H1; unfold fexp, SpecFloat.emin, prec, emax; lia).
  pose proof (digits2_pos_gt m).
  pose proof (Z.pow_le_mono_r 2 (Zpos (digits2_pos m)) 53 ltac:(lia) Hd). lia.
Qed.

Lemma SFmul_within (sn : bool) (mn : positive) (en : Z) (ms : positive) (es : Z) :
  valid_binary (S754_finite sn mn en) = true ->
  valid_binary (S754_finite false ms es) = true ->
  SFleb (S754_finite false mn en) (S754_finite false 4503599627370496 (-52)) = true ->
  SFleb (S754_finite true ms es)
        (SF64mul (S754_finite sn mn en) (S754_finite false ms es)) = true
  /\ SFleb (SF64mul (S754_finite sn mn en) (S754_finite false ms es))
           (S754_finite false ms es) = true.
Proof.
  intros Hvn Hvs Hle.
  destruct (valid_finite_inv _ _ _ Hvn) as (_ & _ & Hmn).
  destruct (valid_finite_inv _ _ _ Hvs) as (Hcan & Hes & _).
  assert (Hn : en <= -52 /\ Zpos mn <= 2 ^ (- en)).
  { revert Hle. unfold SFleb, SFcompare.
    destruct (en ?= -52) eqn:Hc; try discriminate.
    - apply Z.compare_eq in Hc. subst en. intros H. split; [lia|].
      change (2 ^ (- -52)) with (Zpos 4503599627370496).
      rewrite Pos.compare_cont_spec, Pos2Z.inj_compare in H.
      destruct (Z.compare_spec (Zpos mn) (Zpos 4503599627370496));
        try discriminate H; lia.
    - intros _. rewrite Z.compare_lt_iff in Hc. split; [lia|].
      pose proof (Z.pow_le_mono_r 2 53 (- en) ltac:(lia) ltac:(lia)). lia. }
  destruct Hn as [Hen Hmn'].
  unfold SF64mul, SFmul. rewrite xorb_false_r.
  assert (HP : Zpos (mn * ms) <= Zpos ms * 2 ^ (es - (en + es))).
  { replace (es - (en + es)) with (- en) by lia. rewrite Pos2Z.inj_mul, Z.mul_comm.
    apply Z.mul_le_mono_nonneg_l; lia. }
  destruct (binary_round_aux_le sn (mn * ms) ms (en + es) es Hcan Hes ltac:(lia) HP)
    as [->|(m3 & e3 & -> & Hord)].
  - destruct sn; split; reflexivity.
  - unfold SFleb, SFcompare.
    rewrite !Pos.compare_cont_spec, !Pos2Z.inj_compare.
    destruct sn; split; try reflexivity.
    + destruct Hord as [Hlt|[-> Hm]].
      * apply Z.compare_gt_iff in Hlt. rewrite Hlt. reflexivity.
      * rewrite Z.compare_refl.
        destruct (Z.compare_spec (Zpos ms) (Zpos m3)); try reflexivity. lia.
    + destruct Hord as [Hlt|[-> Hm]].
      * apply Z.compare_lt_iff in Hlt. rewrite Hlt. reflexivity.
      * rewrite Z.compare_refl.
        destruct (Z.compare_spec (Zpos m3) (Zpos ms)); try reflexivity. lia.
Qed.

(** The scaling step stays within the sensitivity: for a finite [s >= 0]
    and [|n| <= 1], [-s <= n * s <= s]. *)
Lemma mul_within (n s : float) :
  PyFloat.is_finite s = true ->
  (0 <=? s)%float = true ->
  (abs n <=? 1)%float = true ->
  (- s <=? n * s)%float = true /\ (n * s <=? s)%float = true.
Proof.
  intros Hfin Hs Hn.
  rewrite !leb_spec, mul_spec, opp_spec. revert Hs Hn.
  rewrite !leb_spec, abs_spec.
  change (Prim2SF 0) with (S754_zero false).
  change (Prim2SF 1) with (S754_finite false 4503599627370496 (-52)).
  pose proof (Prim2SF_valid n) as Hvn. pose proof (Prim2SF_valid s) as Hvs.
  destruct (SF_of_is_finite s Hfin) as [[bs Es]|(bs & ms & es & Es)];
    rewrite Es in *; clear Es.
  - intros _ Hn. destruct (Prim2SF n) as [bn|bn| |bn mn en]; try discriminate Hn.
    + destruct bn, bs; split; reflexivity.
    + destruct bn, bs; split; reflexivity.
  - intros Hs Hn. destruct bs; [discriminate Hs|].
    destruct (Prim2SF n) as [bn|bn| |bn mn en]; try discriminate Hn.
    + destruct bn; split; reflexivity.
    + apply SFmul_within; assumption.
Qed.

End FloatFacts.

(* ===================================================================== *)
(** * [ControllerProfile]: normalization *)
(* ===================================================================== *)

(** An integer sample that converts to the float [r] normalizes, when the
    range is not zero, to the value of the linear formula. *)
Lemma normalize_axis_value (p : ControllerProfile) (raw : Z) (r : float) :
  (max_range p =? 0)%float = false ->
  PyFloat.of_int raw = Ok r ->
  normalize_axis p (Some raw) =
    Ok (if invert p
        then (- ((r - center_value p) / max_range p))%float
        else ((r - center_value p) / max_range p)%float).
Proof.
  intros Hm Hr. unfold normalize_axis, PyFloat.int_sub_float, PyFloat.truediv.
  rewrite Hr. cbn. rewrite Hm. reflexivity.
Qed.

(** C2.  Axis normalization.  For every profile, a missing sample
    normalizes to exactly [0.0].  An integer sample [raw] normalizes to
    [(raw - center_value) / max_range], negated when [invert] is set: with
    a non-zero [max_range] and [raw] converted to the float [r], the call
    returns that value and raises nothing.  Consequently, for a profile
    that meets the data-model invariant [max_range > 0] and whose finite
    [center_value] is the sample [c], [normalize(c) == 0.0]. *)
Theorem normalize_axis_spec (p : ControllerProfile) :
  normalize_axis p None = Ok 0%float
  /\ (forall (raw : Z) (r : float),
        (max_range p =? 0)%float = false ->
        PyFloat.of_int raw = Ok r ->
        normalize_axis p (Some raw) =
          Ok (if invert p
              then (- ((r - center_value p) / max_range p))%float
              else ((r - center_value p) / max_range p)%float))
  /\ (forall c : Z,
        (0 <? max_range p)%float = true ->
        PyFloat.is_finite (center_value p) = true ->
        PyFloat.of_int c = Ok (center_value p) ->
        exists v, normalize_axis p (Some c) = Ok v /\ (v =? 0)%float = true).
Proof.
  split; [reflexivity|]. split.
  - intros raw r Hm Hr. apply normalize_axis_value; assumption.
  - intros c Hm Hf Hc. unfold normalize_axis, PyFloat.int_sub_float, PyFloat.truediv.
    rewrite Hc. cbn. rewrite (FloatFacts.sub_diag _ Hf).
    destruct (FloatFacts.zero_div _ Hm) as [-> ->].
    destruct (invert p); eexists; (split; [reflexivity|]); reflexivity.
Qed.

Lemma normalize_axis_spec_witness :
  (0 <? max_range dualsense)%float = true
  /\ PyFloat.of_int 128 = Ok (center_value dualsense)
  /\ exists v, normalize_axis dualsense (Some 128) = Ok v /\ (v =? 0)%float = true.
Proof.
  split; [reflexivity|]. split; [reflexivity|].
  apply (proj2 (proj2 (normalize_axis_spec dualsense)) 128); reflexivity.
Defined.

(** C8.  Construction accepts a zero range: the claim that it fails is
    refuted at [max_range = 0.0]. *)
Lemma profile_zero_range_accepted :
  ~ exists e, ControllerProfile_init "probe" 0 0 None = Raise e.
Proof. intros [e H]. discriminate H. Qed.

(** C8 (amended).  Profile construction checks nothing: with
    [max_range == 0] (either zero) it succeeds and stores the constants as
    given.  The zero range shows only later: [normalize] of a missing
    sample still returns [0.0], and [normalize] of every integer sample
    that converts to a float raises [ZeroDivisionError]. *)
Theorem profile_zero_range_unchecked
    (nm : string) (c m : float) (inv : option bool) :
  (m =? 0)%float = true ->
  exists p,
    ControllerProfile_init nm c m inv = Ok p
    /\ max_range p = m /\ center_value p = c
    /\ normalize_axis p None = Ok 0%float
    /\ forall (raw : Z) (r : float),
         PyFloat.of_int raw = Ok r ->
         normalize_axis p (Some raw) =
           Raise (ZeroDivisionError "float division by zero").
Proof.
  intros Hm. eexists. split; [reflexivity|]. cbn.
  repeat split. intros raw r Hr.
  unfold normalize_axis, PyFloat.int_sub_float, PyFloat.truediv. cbn.
  rewrite Hr. cbn. rewrite Hm. reflexivity.
Qed.

Lemma profile_zero_range_unchecked_witness :
  exists p,
    ControllerProfile_init "probe" 128 0 None = Ok p
    /\ normalize_axis p (Some 5) = Raise (ZeroDivisionError "float division by zero").
Proof.
  destruct (profile_zero_range_unchecked "probe" 128 0 None eq_refl)
    as (p & Hp & _ & _ & _ & Hz).
  exists p. split; [exact Hp|]. apply (Hz 5 5%float). reflexivity.
Defined.

(* ===================================================================== *)
(** * The command computation *)
(* ===================================================================== *)

Section CommandComputer.
Import XInputEntry.

(** C3.  Dead zone.  Let [n] be the normalized value of a raw sample and
    [z] the dead zone.  If [|n| < z], the output of the axis is zero: it
    compares equal to [0.0] for every finite [stick_sensitivity], and is
    [+0.0] itself for a positive one.  If [|n| >= z], the output is
    [n * stick_sensitivity], not zeroed.  In both cases the object is left
    as it was. *)
Theorem deadzone_spec (self : Se2Gamepad) (raw : option Z) (n : float) :
  normalize_axis (_controller_profile self) raw = Ok n ->
  ((abs n <? dead_zone self)%float = true ->
   PyFloat.is_finite (stick_sensitivity self) = true ->
   exists v,
     _normalize_and_apply_deadzone raw self = (Ok v, self)
     /\ (v =? 0)%float = true
     /\ ((0 <? stick_sensitivity self)%float = true -> v = 0%float))
  /\ ((dead_zone self <=? abs n)%float = true ->
      _normalize_and_apply_deadzone raw self =
        (Ok (n * stick_sensitivity self)%float, self)).
Proof.
  intros Hn. unfold _normalize_and_apply_deadzone. rewrite Hn. cbn [result_bind].
  split.
  - intros Hlt Hfin. rewrite Hlt. eexists. split; [reflexivity|]. split.
    + apply FloatFacts.zero_mul_finite, Hfin.
    + intros Hpos. apply FloatFacts.zero_mul_pos; assumption.
  - intros Hge. rewrite (FloatFacts.leb_not_ltb _ _ Hge). reflexivity.
Qed.

Lemma deadzone_spec_witness :
  let self := fst (Se2Gamepad_init [] None None None) in
  (exists v, _normalize_and_apply_deadzone (Some 300) self = (Ok v, self)
             /\ (v =? 0)%float = true)
  /\ _normalize_and_apply_deadzone (Some 16384) self = (Ok (-0.5)%float, self).
Proof.
  set (self := fst (Se2Gamepad_init [] None None None)).
  assert (H300 : normalize_axis (_controller_profile self) (Some 300)
                 = Ok (-0.0091552734375)%float) by reflexivity.
  assert (H16k : normalize_axis (_controller_profile self) (Some 16384)
                 = Ok (-0.5)%float) by reflexivity.
  split.
  - destruct (proj1 (deadzone_spec self (Some 300) _ H300) eq_refl eq_refl)
      as (v & Hv & Hz & _).
    exists v. split; assumption.
  - exact (proj2 (deadzone_spec self (Some 16384) _ H16k) eq_refl).
Defined.

(** The command computation written out: the three axis outputs in turn,
    each write visible even when a later axis raises, and the mode decided
    by the last rule that fires. *)
Lemma update_command_buffer_unfold (self : Se2Gamepad) :
  let st := _states self in
  let out raw := fst (_normalize_and_apply_deadzone raw self) in
  let c := commands self in
  let mode :=
    if truthy (st !! BTN_X) || truthy (st !! BTN_THUMB_L) || truthy (st !! BTN_THUMB_R)
    then 1
    else if truthy (st !! BTN_A) && truthy (st !! BTN_BUMPER_L) then 2
    else if truthy (st !! BTN_A) && truthy (st !! BTN_BUMPER_R) then 3
    else 0 in
  _update_command_buffer self =
    match out (st !! AXIS_Y_L) with
    | Raise e => (Raise e, self)
    | Ok vx =>
      match out (st !! AXIS_X_R) with
      | Raise e =>
          (Raise e,
           with_commands {| velocity_x := vx; velocity_y := velocity_y c;
                            velocity_yaw := velocity_yaw c;
                            mode_switch := mode_switch c |} self)
      | Ok vy =>
        match out (st !! AXIS_X_L) with
        | Raise e =>
            (Raise e,
             with_commands {| velocity_x := vx; velocity_y := vy;
                              velocity_yaw := velocity_yaw c;
                              mode_switch := mode_switch c |} self)
        | Ok vyaw =>
            (Ok tt,
             with_commands {| velocity_x := vx; velocity_y := vy;
                              velocity_yaw := vyaw; mode_switch := mode |} self)
        end
      end
    end.
Proof.
  intros st out c mode. subst st out c mode.
  unfold _update_command_buffer, method_bind, states_get, set_velocity_x,
    set_velocity_y, set_velocity_yaw, set_mode_switch,
    _normalize_and_apply_deadzone, with_commands.
  cbn -[truthy normalize_axis lookup].
  destruct (normalize_axis (_controller_profile self) (_states self !! AXIS_Y_L))
    as [nx|e]; cbn -[truthy normalize_axis lookup]; [|reflexivity].
  destruct (normalize_axis (_controller_profile self) (_states self !! AXIS_X_R))
    as [ny|e]; cbn -[truthy normalize_axis lookup]; [|reflexivity].
  destruct (normalize_axis (_controller_profile self) (_states self !! AXIS_X_L))
    as [nyaw|e]; cbn -[truthy normalize_axis lookup]; [|reflexivity].
  destruct (truthy (_states self !! BTN_X)), (truthy (_states self !! BTN_THUMB_L)),
    (truthy (_states self !! BTN_THUMB_R)), (truthy (_states self !! BTN_A)),
    (truthy (_states self !! BTN_BUMPER_L)), (truthy (_states self !! BTN_BUMPER_R));
    reflexivity.
Qed.

(** Normalization raises only the two arithmetic exceptions. *)
Lemma normalize_axis_raises (p : ControllerProfile) (raw : option Z) (e : py_exn) :
  normalize_axis p raw = Raise e -> isinstance_Exception e = true.
Proof.
  destruct raw as [raw|]; [|discriminate].
  unfold normalize_axis, PyFloat.int_sub_float, PyFloat.truediv, PyFloat.of_int.
  destruct (binary_normalize prec emax raw 0 false); cbn;
    try (destruct (max_range p =? 0)%float; cbn);
    intros H; inversion H; reflexivity.
Qed.

(** Normalization returns on a missing sample and on every sample of
    magnitude below [2^53], provided the range is not zero. *)
Lemma normalize_axis_returns (p : ControllerProfile) (raw : option Z) :
  (max_range p =? 0)%float = false ->
  (forall z, raw = Some z -> - 2 ^ 53 < z < 2 ^ 53) ->
  exists n, normalize_axis p raw = Ok n.
Proof.
  intros Hm Hraw. destruct raw as [z|]; [|eexists; reflexivity].
  destruct (FloatFacts.of_int_small z (Hraw z eq_refl)) as (r & Hr & _).
  eexists. apply (normalize_axis_value p z r Hm Hr).
Qed.

Lemma apply_deadzone_of_normalize (self : Se2Gamepad) (raw : option Z) (n : float) :
  normalize_axis (_controller_profile self) raw = Ok n ->
  exists v, fst (_normalize_and_apply_deadzone raw self) = Ok v.
Proof.
  intros Hn. unfold _normalize_and_apply_deadzone. rewrite Hn. cbn. eauto.
Qed.

(** The computation returns normally on every state whose three axis
    samples are missing or of magnitude below [2^53]. *)
Lemma update_command_buffer_returns (self : Se2Gamepad) :
  (max_range (_controller_profile self) =? 0)%float = false ->
  (forall key z, key ∈ [AXIS_Y_L; AXIS_X_R; AXIS_X_L] ->
                 _states self !! key = Some z -> - 2 ^ 53 < z < 2 ^ 53) ->
  exists self', _update_command_buffer self = (Ok tt, self').
Proof.
  intros Hm Hraw. rewrite update_command_buffer_unfold.
  assert (Hax : forall key, key ∈ [AXIS_Y_L; AXIS_X_R; AXIS_X_L] ->
            exists v, fst (_normalize_and_apply_deadzone (_states self !! key) self) = Ok v).
  { intros key Hkey.
    destruct (normalize_axis_returns (_controller_profile self) (_states self !! key) Hm)
      as [n Hn]; [intros z Hz; exact (Hraw key z Hkey Hz)|].
    exact (apply_deadzone_of_normalize self _ n Hn). }
  destruct (Hax AXIS_Y_L) as [vx ->]; [set_solver +|].
  destruct (Hax AXIS_X_R) as [vy ->]; [set_solver +|].
  destruct (Hax AXIS_X_L) as [vyaw ->]; [set_solver +|].
  eauto.
Qed.

(** C1.  The claimed precedence is refuted: with button A and both
    bumpers pressed (X and the thumbsticks released) the computation
    returns and leaves [mode_switch = 2], not [3]. *)
Lemma mode_switch_both_bumpers_is_init :
  let g0 := fst (Se2Gamepad_init [] None None None) in
  let pressed :=
    [ {| code := BTN_A; state := 1 |}; {| code := BTN_BUMPER_L; state := 1 |};
      {| code := BTN_BUMPER_R; state := 1 |} ] in
  let self := snd (apply_events pressed g0) in
  fst (_update_command_buffer self) = Ok tt
  /\ mode_switch (commands (snd (_update_command_buffer self))) = 2
  /\ mode_switch (commands (snd (_update_command_buffer self))) <> 3.
Proof. vm_compute. repeat split; discriminate. Qed.

(** C1 (amended).  Mode-switch precedence of the command computation.
    The computation returns on every state whose axis samples are missing
    or below [2^53] in magnitude (the range being non-zero), and whenever
    it returns, the mode is decided as follows, a button counting as
    pressed when its state is present and non-zero:
    - X or a thumbstick pressed: [mode_switch = 1], whatever else is held;
    - otherwise A and the left bumper pressed: [mode_switch = 2], also when
      the right bumper is pressed too (init overrides activate);
    - otherwise A and the right bumper pressed: [mode_switch = 3];
    - otherwise (in particular with nothing pressed): [mode_switch = 0]. *)
Theorem mode_switch_precedence (self : Se2Gamepad) :
  let pressed key := truthy (_states self !! key) in
  let idle := pressed BTN_X || pressed BTN_THUMB_L || pressed BTN_THUMB_R in
  ((max_range (_controller_profile self) =? 0)%float = false ->
   (forall key z, key ∈ [AXIS_Y_L; AXIS_X_R; AXIS_X_L] ->
                  _states self !! key = Some z -> - 2 ^ 53 < z < 2 ^ 53) ->
   exists self', _update_command_buffer self = (Ok tt, self'))
  /\ forall self', _update_command_buffer self = (Ok tt, self') ->
       let mode := mode_switch (commands self') in
       (idle = true -> mode = 1)
       /\ (idle = false -> pressed BTN_A = true -> pressed BTN_BUMPER_L = true ->
           mode = 2)
       /\ (idle = false -> pressed BTN_A = true -> pressed BTN_BUMPER_L = false ->
           pressed BTN_BUMPER_R = true -> mode = 3)
       /\ (idle = false ->
           pressed BTN_A && (pressed BTN_BUMPER_L || pressed BTN_BUMPER_R) = false ->
           mode = 0).
Proof.
  intros pressed idle. split; [apply update_command_buffer_returns|].
  intros self' Hup. rewrite update_command_buffer_unfold in Hup.
  destruct (fst (_normalize_and_apply_deadzone (_states self !! AXIS_Y_L) self));
    [|discriminate].
  destruct (fst (_normalize_and_apply_deadzone (_states self !! AXIS_X_R) self));
    [|discriminate].
  destruct (fst (_normalize_and_apply_deadzone (_states self !! AXIS_X_L) self));
    [|discriminate].
  inversion Hup; subst self'; clear Hup. cbn [commands with_commands mode_switch].
  fold (pressed BTN_X) (pressed BTN_THUMB_L) (pressed BTN_THUMB_R)
       (pressed BTN_A) (pressed BTN_BUMPER_L) (pressed BTN_BUMPER_R).
  fold idle.
  destruct idle, (pressed BTN_A), (pressed BTN_BUMPER_L), (pressed BTN_BUMPER_R);
    cbn; repeat split; intros; congruence.
Qed.

Lemma mode_switch_precedence_witness :
  let g0 := fst (Se2Gamepad_init [] None None None) in
  let self :=
    snd (apply_events [ {| code := BTN_A; state := 1 |};
                        {| code := BTN_BUMPER_R; state := 1 |} ] g0) in
  exists self', _update_command_buffer self = (Ok tt, self')
                /\ mode_switch (commands self') = 3.
Proof.
  intros g0 self.
  destruct (mode_switch_precedence self) as [Hret Hmode].
  exists (snd (_update_command_buffer self)).
  assert (Hup : _update_command_buffer self = (Ok tt, snd (_update_command_buffer self)))
    by (vm_compute; reflexivity).
  split; [exact Hup|].
  destruct (Hmode _ Hup) as (_ & _ & H3 & _).
  apply H3; reflexivity.
Defined.

(** C10.  An event whose code is none of the nine codes the command
    computation reads leaves the computed snapshot as it would be without
    it: the same outcome (returning, or raising the same exception) and
    the same [velocity_x], [velocity_y], [velocity_yaw] and
    [mode_switch]. *)
Theorem irrelevant_event_frame (self : Se2Gamepad) (ev : event) :
  code ev ∉ [AXIS_Y_L; AXIS_X_R; AXIS_X_L;
             BTN_A; BTN_X; BTN_BUMPER_L; BTN_BUMPER_R; BTN_THUMB_L; BTN_THUMB_R] ->
  let self1 := snd (states_set (code ev) (state ev) self) in
  fst (_update_command_buffer self1) = fst (_update_command_buffer self)
  /\ commands (snd (_update_command_buffer self1))
     = commands (snd (_update_command_buffer self)).
Proof.
  intros Hcode self1.
  assert (Hget : forall key,
            key ∈ [AXIS_Y_L; AXIS_X_R; AXIS_X_L;
                   BTN_A; BTN_X; BTN_BUMPER_L; BTN_BUMPER_R; BTN_THUMB_L; BTN_THUMB_R] ->
            _states self1 !! key = _states self !! key).
  { intros key Hkey. subst self1. cbn [states_set snd with_states _states].
    apply lookup_insert_ne. intros Heq. apply Hcode. rewrite Heq. exact Hkey. }
  rewrite !update_command_buffer_unfold.
  rewrite !Hget by set_solver +.
  change (fun raw => fst (_normalize_and_apply_deadzone raw self1))
    with (fun raw => fst (_normalize_and_apply_deadzone raw self)).
  cbv zeta.
  change (fst (_normalize_and_apply_deadzone ?r self1))
    with (fst (_normalize_and_apply_deadzone r self)).
  destruct (fst (_normalize_and_apply_deadzone (_states self !! AXIS_Y_L) self));
    [|split; reflexivity].
  destruct (fst (_normalize_and_apply_deadzone (_states self !! AXIS_X_R) self));
    [|split; reflexivity].
  destruct (fst (_normalize_and_apply_deadzone (_states self !! AXIS_X_L) self));
    split; reflexivity.
Qed.

Lemma irrelevant_event_frame_witness :
  let self := fst (Se2Gamepad_init [] None None None) in
  let ev := {| code := BTN_START; state := 1 |} in
  commands (snd (_update_command_buffer (snd (states_set (code ev) (state ev) self))))
  = commands (snd (_update_command_buffer self)).
Proof.
  intros self ev.
  refine (proj2 (irrelevant_event_frame self ev _)).
  vm_compute. intros H.
  repeat (apply elem_of_cons in H; destruct H as [H|H]; [discriminate H|]).
  inversion H.
Defined.

(** A key that is really missing is read as no signal: under every
    profile the axis output is [0.0 * stick_sensitivity], and nothing is
    raised. *)
Lemma missing_axis_output (self : Se2Gamepad) (key : string) :
  _states self !! key = None ->
  _normalize_and_apply_deadzone (_states self !! key) self =
    (Ok ((if (abs 0 <? dead_zone self)%float then 0%float else 0%float)
         * stick_sensitivity self)%float, self).
Proof. intros ->. reflexivity. Qed.

(** Under the XInput profile the [0] that [reset] stores is the center:
    the first snapshot is the zero snapshot. *)
Lemma reset_xinput_zero_snapshot :
  let self := fst (Se2Gamepad_init [] None None None) in
  _controller_profile self = xinput
  /\ _update_command_buffer self = (Ok tt, with_commands zero_commands self).
Proof. repeat split. Qed.

(** C4.  The no-signal policy fails right after [reset] under the
    DualSense profile: [reset] stores [0] for every control code, and the
    command computation reads that [0] as a sample, which the profile
    (center 128) normalizes to full deflection.  With no event observed,
    the three velocities come out as [1.0], not [0.0]. *)
Theorem reset_dualsense_full_deflection :
  let devices := [ {| device_name := "DualSense Wireless Controller" |} ] in
  let self := fst (Se2Gamepad_init devices None None None) in
  _controller_profile self = dualsense
  /\ _states self = reset_states
  /\ reset_states !! AXIS_Y_L = Some 0
  /\ _update_command_buffer self =
       (Ok tt,
        with_commands {| velocity_x := 1; velocity_y := 1; velocity_yaw := 1;
                         mode_switch := 0 |} self).
Proof. repeat split. Qed.

End CommandComputer.

(* ===================================================================== *)
(** * Controller detection *)
(* ===================================================================== *)

(** C6.  Resolver exclusion and second-priority match.  On the device list
    ["Sony DualSense Motion Sensor"; "Xbox Wireless Controller"] the first
    name carries a Sony marker and the excluded keyword "motion"; the
    resolver passes over it, binds the Xbox device and returns the XInput
    profile. *)
Theorem detect_controller_skips_motion_sensor :
  let sensor := {| device_name := "Sony DualSense Motion Sensor" |} in
  let xbox := {| device_name := "Xbox Wireless Controller" |} in
  contains "sony" (lower (device_name sensor)) = true
  /\ contains "motion" (lower (device_name sensor)) = true
  /\ _detect_controller [sensor; xbox]
     = (["Detected gamepad: Xbox Wireless Controller"], (Some xbox, xinput))
  /\ _gamepad_device (fst (Se2Gamepad_init [sensor; xbox] None None None)) = Some xbox
  /\ _controller_profile (fst (Se2Gamepad_init [sensor; xbox] None None None)) = xinput.
Proof. vm_compute. repeat split. Qed.

(** C7.  Default fallback.  On the empty device list, and on every list
    none of whose names matches, resolution returns no device together
    with the XInput profile and prints the informational line.  Resolution
    is a total function: on every list it returns a device of the list or
    none, and one of the two built-in profiles; it has no failing
    outcome. *)
Theorem detect_controller_fallback :
  let note := "No specific controller detected, using default gamepad with XInput profile" in
  _detect_controller [] = ([note], (None, xinput))
  /\ (forall devices : list InputDevice,
        (forall d, d ∈ devices ->
           let n := lower (device_name d) in
           (contains "dualsense" n || contains "sony" n)
             && (negb (contains "motion" n) && negb (contains "touchpad" n)) = false
           /\ contains "xbox" n || contains "xinput" n = false) ->
        _detect_controller devices = ([note], (None, xinput)))
  /\ (forall devices : list InputDevice,
        exists lines dev p,
          _detect_controller devices = (lines, (dev, p))
          /\ (p = xinput \/ p = dualsense)
          /\ (dev = None -> p = xinput /\ lines = [note])
          /\ (forall d, dev = Some d -> d ∈ devices)).
Proof.
  intros note. split; [reflexivity|]. split.
  - induction devices as [|d rest IH]; intros Hno; [reflexivity|].
    destruct (Hno d ltac:(left)) as [Hds Hxb]. cbn zeta in Hds, Hxb.
    cbn [_detect_controller]. cbv zeta. rewrite Hxb.
    rewrite IH by (intros d' Hd'; apply Hno; right; exact Hd').
    destruct (contains "dualsense" (lower (device_name d))
              || contains "sony" (lower (device_name d))); [|reflexivity].
    cbn [andb] in Hds. rewrite Hds. reflexivity.
  - induction devices as [|d rest IH].
    + do 3 eexists. split; [reflexivity|]. split; [left; reflexivity|].
      split; [intros _; split; reflexivity|]. intros d H; discriminate H.
    + destruct IH as (lines & dev & p & Hrec & Hp & Hnone & Hsome).
      cbn [_detect_controller]. cbv zeta. rewrite Hrec.
      assert (Hx : exists lines' dev' p',
                (if contains "xbox" (lower (device_name d))
                    || contains "xinput" (lower (device_name d))
                 then (["Detected gamepad: " +:+ device_name d], (Some d, xinput))
                 else (lines, (dev, p))) = (lines', (dev', p'))
                /\ (p' = xinput \/ p' = dualsense)
                /\ (dev' = None -> p' = xinput /\ lines' = [note])
                /\ (forall d', dev' = Some d' -> d' ∈ d :: rest)).
      { destruct (contains "xbox" (lower (device_name d))
                  || contains "xinput" (lower (device_name d))).
        - do 3 eexists. split; [reflexivity|]. split; [left; reflexivity|].
          split; [discriminate|]. intros d' [= <-]. left.
        - do 3 eexists. split; [reflexivity|]. split; [exact Hp|].
          split; [exact Hnone|]. intros d' Hd'. right. exact (Hsome d' Hd'). }
      destruct (contains "dualsense" (lower (device_name d))
                || contains "sony" (lower (device_name d))); [|exact Hx].
      destruct (negb (contains "motion" (lower (device_name d)))
                && negb (contains "touchpad" (lower (device_name d)))); [|exact Hx].
      do 3 eexists. split; [reflexivity|]. split; [right; reflexivity|].
      split; [discriminate|]. intros d' [= <-]. left.
Qed.

Lemma detect_controller_fallback_witness :
  _detect_controller [ {| device_name := "Logitech Gamepad F310" |};
                       {| device_name := "Sony DualSense Touchpad" |} ]
  = (["No specific controller detected, using default gamepad with XInput profile"],
     (None, xinput)).
Proof.
  apply (proj1 (proj2 detect_controller_fallback)).
  intros d Hd.
  repeat (apply elem_of_cons in Hd; destruct Hd as [->|Hd]; [vm_compute; split; reflexivity|]).
  inversion Hd.
Defined.

(* ===================================================================== *)
(** * The polling loop *)
(* ===================================================================== *)

Lemma apply_events_returns (events : list event) (self : Se2Gamepad) :
  fst (apply_events events self) = Ok tt
  /\ debug (snd (apply_events events self)) = debug self
  /\ _stopped (snd (apply_events events self)) = _stopped self.
Proof.
  revert self. induction events as [|ev rest IH]; intros self; [repeat split|].
  cbn [apply_events]. unfold method_bind. cbn [states_set].
  destruct (IH (with_states (<[code ev:=state ev]> (_states self)) self))
    as (H1 & H2 & H3).
  repeat split; assumption.
Qed.

Lemma update_command_buffer_frame (self : Se2Gamepad) :
  debug (snd (_update_command_buffer self)) = debug self
  /\ _stopped (snd (_update_command_buffer self)) = _stopped self
  /\ forall e, fst (_update_command_buffer self) = Raise e ->
               isinstance_Exception e = true.
Proof.
  rewrite update_command_buffer_unfold. cbv zeta.
  unfold _normalize_and_apply_deadzone. cbn [fst].
  destruct (normalize_axis _ (_states self !! XInputEntry.AXIS_Y_L)) as [nx|ex] eqn:Hx;
    cbn [result_bind].
  2:{ repeat split. intros e [= <-]. exact (normalize_axis_raises _ _ _ Hx). }
  destruct (normalize_axis _ (_states self !! XInputEntry.AXIS_X_R)) as [ny|ey] eqn:Hy;
    cbn [result_bind].
  2:{ repeat split. intros e [= <-]. exact (normalize_axis_raises _ _ _ Hy). }
  destruct (normalize_axis _ (_states self !! XInputEntry.AXIS_X_L)) as [nw|ew] eqn:Hw;
    cbn [result_bind].
  2:{ repeat split. intros e [= <-]. exact (normalize_axis_raises _ _ _ Hw). }
  repeat split. intros e H. discriminate H.
Qed.

(** What the [try] block can raise: the failure of the read that was
    used, or an arithmetic exception of the command computation. *)
Lemma advance_body_frame (env : reader) (self : Se2Gamepad) :
  debug (snd (advance_body env self)) = debug self
  /\ _stopped (snd (advance_body env self)) = _stopped self
  /\ forall e, fst (advance_body env self) = Raise e ->
       isinstance_Exception e = true
       \/ failure (get_gamepad env) = Some e
       \/ exists d, failure (device_read env d) = Some e.
Proof.
  unfold advance_body, method_bind, read_events.
  set (rd := match _gamepad_device self with
             | Some device => device_read env device
             | None => get_gamepad env
             end).
  assert (Hrd : forall e, failure rd = Some e ->
            failure (get_gamepad env) = Some e
            \/ exists d, failure (device_read env d) = Some e).
  { subst rd. destruct (_gamepad_device self); eauto. }
  replace (match _gamepad_device self with
           | Some device => (Ok (device_read env device), self)
           | None => (Ok (get_gamepad env), self)
           end) with (Ok rd, self) by (subst rd; destruct (_gamepad_device self); reflexivity).
  destruct (apply_events_returns (yielded rd) self) as (Hok & Hdbg & Hstop).
  destruct (apply_events (yielded rd) self) as [r self1]. cbn [fst snd] in *. subst r.
  destruct (failure rd) as [e0|] eqn:Hf.
  - unfold method_raise. cbn [fst snd]. repeat split; try assumption.
    intros e [= <-]. right. apply Hrd. reflexivity.
  - destruct (update_command_buffer_frame self1) as (Hd & Hs & Hr).
    repeat split; try congruence. intros e He. left. exact (Hr e He).
Qed.

(** One cycle: an exception of class [Exception] raised in the [try]
    block never leaves [advance]; it is printed exactly when [debug] is
    set. *)
Lemma advance_catches (env : reader) (self : Se2Gamepad) (e : py_exn) :
  fst (advance_body env self) = Raise e ->
  isinstance_Exception e = true ->
  propagated (advance env self) = None
  /\ printed (advance env self)
     = (if debug self then ["Gamepad error: " +:+ exn_str e] else [])
  /\ after (advance env self) = snd (advance_body env self).
Proof.
  intros Hraise Hexn. unfold advance.
  destruct (advance_body_frame env self) as (Hdbg & _ & _).
  destruct (advance_body env self) as [r self1]. cbn [fst snd] in *. subst r.
  rewrite Hexn, Hdbg. repeat split.
Qed.

(** A cycle in which every read failure is of class [Exception] ends
    normally, with the stop flag and [debug] as they were. *)
Lemma advance_returns (env : reader) (self : Se2Gamepad) :
  (forall e, failure (get_gamepad env) = Some e \/
             (exists d, failure (device_read env d) = Some e) ->
             isinstance_Exception e = true) ->
  propagated (advance env self) = None
  /\ debug (after (advance env self)) = debug self
  /\ _stopped (after (advance env self)) = _stopped self
  /\ (debug self = false -> printed (advance env self) = []).
Proof.
  intros Hrd. unfold advance.
  destruct (advance_body_frame env self) as (Hdbg & Hstop & Hraise).
  destruct (advance_body env self) as [[u|e] self1]; cbn [fst snd] in *.
  - repeat split; assumption.
  - assert (He : isinstance_Exception e = true).
    { destruct (Hraise e eq_refl) as [H|H]; [exact H|]. apply Hrd. exact H. }
    rewrite He. cbn [propagated after printed]. rewrite Hdbg.
    repeat split; try assumption. intros ->. reflexivity.
Qed.

(** The boundary of the [except Exception] clause: what derives from
    [BaseException] only leaves [advance] and ends the loop. *)
Lemma advance_propagates_base_exception (env : reader) (self : Se2Gamepad)
    (cls msg : string) :
  fst (advance_body env self) = Raise (BaseException_ cls msg) ->
  propagated (advance env self) = Some (BaseException_ cls msg)
  /\ printed (advance env self) = [].
Proof.
  intros Hraise. unfold advance.
  destruct (advance_body env self) as [r self1]. cbn [fst] in Hraise. subst r.
  split; reflexivity.
Qed.

(** C9.  Polling-loop error tolerance.  In one cycle, every exception of
    class [Exception] raised while events are read, decoded and applied is
    caught inside [advance]: nothing propagates, and the error is printed
    exactly when [debug] is set.  In the loop, as long as no stop is
    requested and the reads fail only with such exceptions, every
    iteration is followed at once by the next: the loop never ends in a
    crash, completes one call of [advance] per scripted cycle, and prints
    nothing when [debug] is off. *)
Theorem polling_loop_error_tolerance :
  (forall (env : reader) (self : Se2Gamepad) (e : py_exn),
     fst (advance_body env self) = Raise e ->
     isinstance_Exception e = true ->
     propagated (advance env self) = None
     /\ printed (advance env self)
        = (if debug self then ["Gamepad error: " +:+ exn_str e] else []))
  /\ (forall (script : list tick) (self : Se2Gamepad),
        _stopped self = false ->
        (forall t, t ∈ script ->
           stop_called t = false
           /\ forall e, failure (get_gamepad (env_of t)) = Some e \/
                        (exists d, failure (device_read (env_of t) d) = Some e) ->
                        isinstance_Exception e = true) ->
        status (run_forever script self) = Running
        /\ iterations (run_forever script self) = length script
        /\ (debug self = false -> output (run_forever script self) = [])).
Proof.
  split.
  - intros env self e Hraise Hexn.
    destruct (advance_catches env self e Hraise Hexn) as (H1 & H2 & _). auto.
  - induction script as [|t script IH]; intros self Hrun Hscript; [repeat split|].
    destruct (Hscript t ltac:(left)) as [Hstop Hrd].
    cbn [run_forever]. rewrite Hstop. cbv zeta. rewrite Hrun.
    destruct (advance_returns (env_of t) self Hrd) as (Hprop & Hdbg & Hstopped & Hquiet).
    rewrite Hprop.
    cbn [status iterations output final].
    destruct (IH (after (advance (env_of t) self))) as (Hs & Hi & Ho).
    + congruence.
    + intros t' Ht'. apply Hscript. right. exact Ht'.
    + split; [exact Hs|]. split; [cbn [length]; congruence|].
      intros Hoff. rewrite (Hquiet Hoff), Ho by congruence. reflexivity.
Qed.

Lemma polling_loop_error_tolerance_witness :
  let unplugged :=
    {| device_read := fun _ => {| yielded := []; failure := None |};
       get_gamepad :=
         {| yielded := [];
            failure := Some (Exception_ "UnpluggedError" "No gamepad found.") |} |} in
  let plugged :=
    {| device_read := fun _ => {| yielded := []; failure := None |};
       get_gamepad :=
         {| yielded := [ {| code := "ABS_Y"; state := -16384 |} ]; failure := None |} |} in
  let script := [ {| stop_called := false; env_of := unplugged |};
                  {| stop_called := false; env_of := plugged |} ] in
  let self := fst (Se2Gamepad_init [] None None (Some true)) in
  status (run_forever script self) = Running
  /\ iterations (run_forever script self) = 2%nat
  /\ output (run_forever script self) = ["Gamepad error: No gamepad found."]
  /\ velocity_x (commands (final (run_forever script self))) = 0.5%float.
Proof.
  intros unplugged plugged script self.
  destruct (proj2 polling_loop_error_tolerance script self eq_refl) as (Hs & Hi & _).
  { intros t Ht.
    repeat (apply elem_of_cons in Ht; destruct Ht as [->|Ht]);
      [| |inversion Ht]; (split; [reflexivity|]); cbn; intros e [H|[d H]];
      try discriminate H; inversion H; reflexivity. }
  split; [exact Hs|]. split; [exact Hi|]. split; reflexivity.
Defined.

(* ===================================================================== *)
(** * The range of the velocities *)
(* ===================================================================== *)

Section VelocityRange.
Import XInputEntry.

(** An axis whose normalized value lies in [[-1, 1]] comes out within the
    sensitivity, whether or not the dead zone zeroes it. *)
Lemma axis_output_within (self : Se2Gamepad) (raw : option Z) (n : float) :
  normalize_axis (_controller_profile self) raw = Ok n ->
  (abs n <=? 1)%float = true ->
  PyFloat.is_finite (stick_sensitivity self) = true ->
  (0 <=? stick_sensitivity self)%float = true ->
  exists v,
    fst (_normalize_and_apply_deadzone raw self) = Ok v
    /\ (- stick_sensitivity self <=? v)%float = true
    /\ (v <=? stick_sensitivity self)%float = true.
Proof.
  intros Hn Hunit Hfin Hpos. unfold _normalize_and_apply_deadzone. rewrite Hn.
  cbn [fst result_bind]. eexists. split; [reflexivity|].
  destruct (abs n <? dead_zone self)%float.
  - apply FloatFacts.mul_within; [assumption|assumption|reflexivity].
  - apply FloatFacts.mul_within; assumption.
Qed.

(** The built-in profiles on the sample range of their devices, checked
    sample by sample. *)
Lemma check_from_spec (f : Z -> bool) (n : nat) :
  forall lo : Z,
    check_from f lo n = true ->
    forall z, lo <= z < lo + Z.of_nat n -> f z = true.
Proof.
  induction n as [|n IH]; intros lo Hall z Hz; [lia|].
  cbn [check_from] in Hall. apply andb_prop in Hall. destruct Hall as [Hlo Hrest].
  destruct (Z.eq_dec z lo) as [->|Hne]; [exact Hlo|].
  apply (IH (lo + 1) Hrest). lia.
Qed.

Lemma xinput_samples_checked :
  check_from (fun z => match normalize_axis xinput (Some z) with
                       | Ok n => (abs n <=? 1)%float
                       | Raise _ => false
                       end) (-32768) (Z.to_nat 65537) = true.
Proof. vm_compute. reflexivity. Qed.

Lemma dualsense_samples_checked :
  check_from (fun z => match normalize_axis dualsense (Some z) with
                       | Ok n => (abs n <=? 1)%float
                       | Raise _ => false
                       end) 0 (Z.to_nat 257) = true.
Proof. vm_compute. reflexivity. Qed.

Lemma xinput_unit_range (raw : Z) :
  -32768 <= raw <= 32768 ->
  exists n, normalize_axis xinput (Some raw) = Ok n /\ (abs n <=? 1)%float = true.
Proof.
  intros Hraw.
  pose proof (check_from_spec _ _ _ xinput_samples_checked raw) as Hall.
  cbv beta in Hall. rewrite Z2Nat.id in Hall by lia.
  destruct (normalize_axis xinput (Some raw)) as [n|e].
  - exists n. split; [reflexivity|]. apply Hall. lia.
  - discriminate Hall. lia.
Qed.

Lemma dualsense_unit_range (raw : Z) :
  0 <= raw <= 256 ->
  exists n, normalize_axis dualsense (Some raw) = Ok n /\ (abs n <=? 1)%float = true.
Proof.
  intros Hraw.
  pose proof (check_from_spec _ _ _ dualsense_samples_checked raw) as Hall.
  cbv beta in Hall. rewrite Z2Nat.id in Hall by lia.
  destruct (normalize_axis dualsense (Some raw)) as [n|e].
  - exists n. split; [reflexivity|]. apply Hall. lia.
  - discriminate Hall. lia.
Qed.

(** C5.  The range bound is refuted: under the XInput profile with the
    default configuration, the sample [65535] on the left stick's Y axis
    gives [velocity_x = -1.999969482421875], below [-stick_sensitivity]. *)
Lemma velocity_out_of_range :
  let g0 := fst (Se2Gamepad_init [] None None None) in
  let self := snd (apply_events [ {| code := AXIS_Y_L; state := 65535 |} ] g0) in
  let c := commands (snd (_update_command_buffer self)) in
  fst (_update_command_buffer self) = Ok tt
  /\ stick_sensitivity self = 1%float
  /\ velocity_x c = (-1.999969482421875)%float
  /\ (- stick_sensitivity self <=? velocity_x c)%float = false.
Proof. vm_compute. repeat split. Qed.

(** C5 (amended).  The velocities are not clamped; they are bounded by the
    sensitivity exactly as far as the normalized samples stay in
    [[-1, 1]].  For a finite [stick_sensitivity = s >= 0] and a raw control
    state in which each of the three axis samples is missing or normalizes
    into [[-1, 1]], the computation returns and each of [velocity_x],
    [velocity_y], [velocity_yaw] lies in [[-s, s]].  The samples of the
    devices' own ranges normalize into [[-1, 1]]: [-32768 .. 32768] under
    the XInput profile and [0 .. 256] under the DualSense profile; a
    missing sample normalizes to [0.0] under every profile. *)
Theorem velocity_range :
  (forall self : Se2Gamepad,
     let s := stick_sensitivity self in
     PyFloat.is_finite s = true ->
     (0 <=? s)%float = true ->
     (forall key, key ∈ [AXIS_Y_L; AXIS_X_R; AXIS_X_L] ->
        exists n, normalize_axis (_controller_profile self) (_states self !! key) = Ok n
                  /\ (abs n <=? 1)%float = true) ->
     exists self',
       _update_command_buffer self = (Ok tt, self')
       /\ forall v,
            v ∈ [velocity_x (commands self'); velocity_y (commands self');
                 velocity_yaw (commands self')] ->
            (- s <=? v)%float = true /\ (v <=? s)%float = true)
  /\ (forall raw : Z,
        -32768 <= raw <= 32768 ->
        exists n, normalize_axis xinput (Some raw) = Ok n
                  /\ (abs n <=? 1)%float = true)
  /\ (forall raw : Z,
        0 <= raw <= 256 ->
        exists n, normalize_axis dualsense (Some raw) = Ok n
                  /\ (abs n <=? 1)%float = true)
  /\ (forall p : ControllerProfile,
        exists n, normalize_axis p None = Ok n /\ (abs n <=? 1)%float = true).
Proof.
  split; [|split; [exact xinput_unit_range|split; [exact dualsense_unit_range|]]].
  - intros self s Hfin Hpos Hunit.
    assert (Hax : forall key, key ∈ [AXIS_Y_L; AXIS_X_R; AXIS_X_L] ->
              exists v, fst (_normalize_and_apply_deadzone (_states self !! key) self) = Ok v
                        /\ (- s <=? v)%float = true /\ (v <=? s)%float = true).
    { intros key Hkey. destruct (Hunit key Hkey) as (n & Hn & Hn1).
      exact (axis_output_within self _ n Hn Hn1 Hfin Hpos). }
    rewrite update_command_buffer_unfold. cbv zeta.
    destruct (Hax AXIS_Y_L) as (vx & -> & Hvx); [set_solver +|].
    destruct (Hax AXIS_X_R) as (vy & -> & Hvy); [set_solver +|].
    destruct (Hax AXIS_X_L) as (vw & -> & Hvw); [set_solver +|].
    eexists. split; [reflexivity|].
    cbn [commands with_commands velocity_x velocity_y velocity_yaw].
    intros v Hv.
    repeat (apply elem_of_cons in Hv; destruct Hv as [->|Hv]; [assumption|]).
    inversion Hv.
  - intros p. exists 0%float. split; reflexivity.
Qed.

Lemma velocity_range_witness :
  let g0 := fst (Se2Gamepad_init [] None None None) in
  let self :=
    snd (apply_events [ {| code := AXIS_Y_L; state := -32768 |};
                        {| code := AXIS_X_R; state := 32767 |} ] g0) in
  exists self',
    _update_command_buffer self = (Ok tt, self')
    /\ (- 1 <=? velocity_x (commands self'))%float = true
    /\ (velocity_x (commands self') <=? 1)%float = true.
Proof.
  intros g0 self.
  destruct (proj1 velocity_range self eq_refl eq_refl) as (self' & Hup & Hv).
  { intros key Hkey.
    repeat (apply elem_of_cons in Hkey; destruct Hkey as [->|Hkey];
            [eexists; split; vm_compute; reflexivity|]).
    inversion Hkey. }
  exists self'. split; [exact Hup|].
  apply (Hv (velocity_x (commands self'))). left.
Defined.

End VelocityRange.

(* ===================================================================== *)
(** * The raw control state: events and [reset] *)
(* ===================================================================== *)

Section StateTracker.
Import XInputEntry.

(** Applying a batch of events never raises and touches nothing but
    [_states], which receives the events in order. *)
Lemma apply_events_fold (events : list event) (self : Se2Gamepad) :
  apply_events events self =
    (Ok tt,
     with_states (foldl (fun st ev => <[code ev := state ev]> st) (_states self) events)
                 self).
Proof.
  revert self. induction events as [|ev rest IH]; intros self.
  - destruct self; reflexivity.
  - cbn [apply_events foldl]. unfold method_bind. cbn [states_set].
    rewrite IH. reflexivity.
Qed.

Lemma fold_events_lookup_other (events : list event) (st : gmap string Z) (key : string) :
  (forall ev, ev ∈ events -> code ev <> key) ->
  foldl (fun st ev => <[code ev := state ev]> st) st events !! key = st !! key.
Proof.
  revert st. induction events as [|ev rest IH]; intros st Hno; [reflexivity|].
  cbn [foldl]. rewrite IH by (intros ev' Hev'; apply Hno; right; exact Hev').
  apply lookup_insert_ne. apply Hno. left.
Qed.

(** X1.  Event application is last-write-wins per control code.  After a
    batch of events, a code carried by some event reads the state of the
    last event that carries it, and a code carried by no event of the
    batch reads what it read before; the command snapshot is not touched
    by the application itself. *)
Theorem apply_events_last_write_wins (self : Se2Gamepad) :
  (forall (before after : list event) (ev : event),
     (forall ev', ev' ∈ after -> code ev' <> code ev) ->
     _states (snd (apply_events (before ++ ev :: after) self)) !! code ev
     = Some (state ev))
  /\ (forall (events : list event) (key : string),
        (forall ev, ev ∈ events -> code ev <> key) ->
        _states (snd (apply_events events self)) !! key = _states self !! key)
  /\ (forall events : list event,
        fst (apply_events events self) = Ok tt
        /\ commands (snd (apply_events events self)) = commands self).
Proof.
  split; [|split].
  - intros before after ev Hlast. rewrite apply_events_fold.
    cbn [snd with_states _states]. rewrite foldl_app. cbn [foldl].
    rewrite fold_events_lookup_other by exact Hlast.
    apply lookup_insert_eq.
  - intros events key Hno. rewrite apply_events_fold.
    cbn [snd with_states _states]. apply fold_events_lookup_other, Hno.
  - intros events. rewrite apply_events_fold. split; reflexivity.
Qed.

Lemma apply_events_last_write_wins_witness :
  let g0 := fst (Se2Gamepad_init [] None None None) in
  let batch := [ {| code := AXIS_Y_L; state := 100 |};
                 {| code := BTN_A; state := 1 |};
                 {| code := AXIS_Y_L; state := -200 |};
                 {| code := BTN_A; state := 0 |} ] in
  _states (snd (apply_events batch g0)) !! AXIS_Y_L = Some (-200)
  /\ _states (snd (apply_events batch g0)) !! AXIS_X_R = _states g0 !! AXIS_X_R.
Proof.
  intros g0 batch. split.
  - refine (proj1 (apply_events_last_write_wins g0)
              [ {| code := AXIS_Y_L; state := 100 |}; {| code := BTN_A; state := 1 |} ]
              [ {| code := BTN_A; state := 0 |} ]
              {| code := AXIS_Y_L; state := -200 |} _).
    intros ev' Hev'. apply list_elem_of_singleton in Hev'. subst ev'. discriminate.
  - refine (proj1 (proj2 (apply_events_last_write_wins g0)) batch AXIS_X_R _).
    intros ev Hev.
    repeat (apply elem_of_cons in Hev; destruct Hev as [->|Hev]; [discriminate|]).
    inversion Hev.
Defined.

(** X2.  [reset] forgets the observed events: whatever events came
    before, the object it leaves is the one it leaves without them, and
    each of the eighteen control codes reads [0] again.  It does not
    recompute the commands: the snapshot stays as it was. *)
Theorem reset_forgets_events (self : Se2Gamepad) (events : list event) :
  let self' := snd (reset (snd (apply_events events self))) in
  self' = snd (reset self)
  /\ commands self' = commands self
  /\ (forall key, key ∈ XInputEntry.values -> _states self' !! key = Some 0).
Proof.
  intros self'. subst self'. rewrite apply_events_fold.
  cbn [snd reset with_states _states commands].
  split; [reflexivity|]. split; [reflexivity|].
  intros key Hkey. unfold reset_states.
  apply elem_of_list_to_map_1.
  - apply (bool_decide_unpack _). vm_compute. exact I.
  - apply list_elem_of_fmap. exists key. split; [reflexivity|exact Hkey].
Qed.

Lemma reset_forgets_events_witness :
  let g0 := fst (Se2Gamepad_init [] None None None) in
  let self := snd (apply_events [ {| code := AXIS_Y_L; state := 500 |} ] g0) in
  _states self !! AXIS_Y_L = Some 500
  /\ _states (snd (reset self)) !! AXIS_Y_L = Some 0.
Proof.
  intros g0 self. split; [reflexivity|].
  refine (proj2 (proj2 (reset_forgets_events self [])) AXIS_Y_L _).
  vm_compute. set_solver +.
Defined.

End StateTracker.

(* ===================================================================== *)
(** * More on the command computation *)
(* ===================================================================== *)

Section CommandComputerMore.
Import XInputEntry.

(** When the computation returns, the snapshot it leaves is made of the
    three axis outputs. *)
Lemma update_command_buffer_Ok_inv (self self' : Se2Gamepad) :
  _update_command_buffer self = (Ok tt, self') ->
  fst (_normalize_and_apply_deadzone (_states self !! AXIS_Y_L) self)
    = Ok (velocity_x (commands self'))
  /\ fst (_normalize_and_apply_deadzone (_states self !! AXIS_X_R) self)
     = Ok (velocity_y (commands self'))
  /\ fst (_normalize_and_apply_deadzone (_states self !! AXIS_X_L) self)
     = Ok (velocity_yaw (commands self'))
  /\ _states self' = _states self
  /\ mode_switch (commands self') =
       (if truthy (_states self !! BTN_X) || truthy (_states self !! BTN_THUMB_L)
           || truthy (_states self !! BTN_THUMB_R)
        then 1
        else if truthy (_states self !! BTN_A) && truthy (_states self !! BTN_BUMPER_L)
        then 2
        else if truthy (_states self !! BTN_A) && truthy (_states self !! BTN_BUMPER_R)
        then 3
        else 0).
Proof.
  rewrite update_command_buffer_unfold. cbv zeta.
  destruct (fst (_normalize_and_apply_deadzone (_states self !! AXIS_Y_L) self));
    [|discriminate].
  destruct (fst (_normalize_and_apply_deadzone (_states self !! AXIS_X_R) self));
    [|discriminate].
  destruct (fst (_normalize_and_apply_deadzone (_states self !! AXIS_X_L) self));
    [|discriminate].
  intros [= <-]. repeat split.
Qed.

(** X3.  The command computation has no memory.  Whether it returns or
    raises does not depend on the previous snapshot; when it returns, the
    snapshot it leaves does not depend on the previous one either, and
    running it again on its own result changes nothing. *)
Theorem update_command_buffer_stateless (self : Se2Gamepad) (previous : Commands) :
  fst (_update_command_buffer (with_commands previous self))
  = fst (_update_command_buffer self)
  /\ (fst (_update_command_buffer self) = Ok tt ->
      snd (_update_command_buffer (with_commands previous self))
      = snd (_update_command_buffer self)
      /\ _update_command_buffer (snd (_update_command_buffer self))
         = (Ok tt, snd (_update_command_buffer self))).
Proof.
  pose proof (update_command_buffer_unfold self) as H1.
  pose proof (update_command_buffer_unfold (with_commands previous self)) as H2.
  cbv beta zeta in H1, H2.
  change (fst (_normalize_and_apply_deadzone ?r (with_commands previous self)))
    with (fst (_normalize_and_apply_deadzone r self)) in H2.
  cbn [_states with_commands] in H2.
  revert H1 H2.
  destruct (fst (_normalize_and_apply_deadzone (_states self !! AXIS_Y_L) self))
    as [vx|e] eqn:Hx; [|intros -> ->; split; [reflexivity|discriminate]].
  destruct (fst (_normalize_and_apply_deadzone (_states self !! AXIS_X_R) self))
    as [vy|e] eqn:Hy; [|intros -> ->; split; [reflexivity|discriminate]].
  destruct (fst (_normalize_and_apply_deadzone (_states self !! AXIS_X_L) self))
    as [vw|e] eqn:Hw; [|intros -> ->; split; [reflexivity|discriminate]].
  intros -> ->. split; [reflexivity|]. intros _. split; [reflexivity|].
  cbn [snd]. rewrite update_command_buffer_unfold. cbv zeta.
  change (fst (_normalize_and_apply_deadzone ?r (with_commands ?c self)))
    with (fst (_normalize_and_apply_deadzone r self)).
  cbn [_states with_commands]. rewrite Hx, Hy, Hw. reflexivity.
Qed.

Lemma update_command_buffer_stateless_witness :
  let g0 := fst (Se2Gamepad_init [] None None None) in
  let self := snd (apply_events [ {| code := AXIS_Y_L; state := -16384 |};
                                  {| code := BTN_X; state := 1 |} ] g0) in
  let stale := {| velocity_x := 9; velocity_y := 9; velocity_yaw := 9;
                  mode_switch := 7 |} in
  commands (snd (_update_command_buffer (with_commands stale self)))
  = {| velocity_x := 0.5; velocity_y := 0; velocity_yaw := 0; mode_switch := 1 |}.
Proof.
  intros g0 self stale.
  destruct (update_command_buffer_stateless self stale) as [_ H].
  destruct (H eq_refl) as [-> _]. reflexivity.
Defined.

(** X4.  A computation that raises leaves a partly written snapshot
    behind, never a new mode.  The exception is an arithmetic one; the raw
    state, [mode_switch] and [velocity_yaw] are as before; [velocity_x] is
    already overwritten when the failing axis is not the first one, and
    when it is the first, the whole snapshot is as before. *)
Theorem update_command_buffer_on_error (self : Se2Gamepad) (e : py_exn) :
  fst (_update_command_buffer self) = Raise e ->
  let self' := snd (_update_command_buffer self) in
  (exists msg, e = ZeroDivisionError msg \/ e = OverflowError msg)
  /\ _states self' = _states self
  /\ mode_switch (commands self') = mode_switch (commands self)
  /\ velocity_yaw (commands self') = velocity_yaw (commands self)
  /\ (forall vx,
        fst (_normalize_and_apply_deadzone (_states self !! AXIS_Y_L) self) = Ok vx ->
        velocity_x (commands self') = vx)
  /\ (forall e',
        fst (_normalize_and_apply_deadzone (_states self !! AXIS_Y_L) self) = Raise e' ->
        self' = self).
Proof.
  assert (Hcls : forall raw e0,
            fst (_normalize_and_apply_deadzone raw self) = Raise e0 ->
            exists msg, e0 = ZeroDivisionError msg \/ e0 = OverflowError msg).
  { intros raw e0. unfold _normalize_and_apply_deadzone. cbn [fst].
    destruct raw as [z|]; [|discriminate].
    unfold normalize_axis, PyFloat.int_sub_float, PyFloat.truediv, PyFloat.of_int.
    destruct (binary_normalize prec emax z 0 false); cbn;
      try (destruct (max_range (_controller_profile self) =? 0)%float; cbn);
      intros H; inversion H; eauto. }
  rewrite update_command_buffer_unfold. cbv zeta.
  destruct (fst (_normalize_and_apply_deadzone (_states self !! AXIS_Y_L) self))
    as [vx|ex] eqn:Hx.
  2:{ cbn [fst snd]. intros [= <-]. split; [exact (Hcls _ _ Hx)|].
      repeat split; try discriminate. }
  destruct (fst (_normalize_and_apply_deadzone (_states self !! AXIS_X_R) self))
    as [vy|ey] eqn:Hy.
  2:{ cbn [fst snd]. intros [= <-]. split; [exact (Hcls _ _ Hy)|].
      repeat split; try discriminate. intros vx' [= <-]. reflexivity. }
  destruct (fst (_normalize_and_apply_deadzone (_states self !! AXIS_X_L) self))
    as [vw|ew] eqn:Hw.
  2:{ cbn [fst snd]. intros [= <-]. split; [exact (Hcls _ _ Hw)|].
      repeat split; try discriminate. intros vx' [= <-]. reflexivity. }
  discriminate.
Qed.

Lemma update_command_buffer_on_error_witness :
  let g0 := fst (Se2Gamepad_init [] None None None) in
  let self := snd (apply_events [ {| code := AXIS_Y_L; state := -32768 |};
                                  {| code := AXIS_X_R; state := 2 ^ 1024 |};
                                  {| code := BTN_X; state := 1 |} ] g0) in
  let self' := snd (_update_command_buffer self) in
  fst (_update_command_buffer self)
  = Raise (OverflowError "int too large to convert to float")
  /\ velocity_x (commands self') = 1%float
  /\ mode_switch (commands self') = 0.
Proof.
  intros g0 self self'.
  assert (He : fst (_update_command_buffer self)
               = Raise (OverflowError "int too large to convert to float"))
    by (vm_compute; reflexivity).
  destruct (update_command_buffer_on_error self _ He) as (_ & _ & Hm & _ & Hx & _).
  split; [exact He|]. split.
  - apply Hx. vm_compute. reflexivity.
  - exact Hm.
Defined.

(** X5.  Each output has its own inputs.  Compare the snapshot computed
    after one more event with the one computed without it, both
    computations returning: an event that is not on the left stick's Y
    axis leaves [velocity_x] as it is, one not on the right stick's X axis
    leaves [velocity_y], one not on the left stick's X axis leaves
    [velocity_yaw], and one on none of the six mode buttons leaves
    [mode_switch]. *)
Theorem outputs_depend_on_their_inputs (self : Se2Gamepad) (ev : event) :
  let self1 := snd (states_set (code ev) (state ev) self) in
  fst (_update_command_buffer self) = Ok tt ->
  fst (_update_command_buffer self1) = Ok tt ->
  let c := commands (snd (_update_command_buffer self)) in
  let c1 := commands (snd (_update_command_buffer self1)) in
  (code ev <> AXIS_Y_L -> velocity_x c1 = velocity_x c)
  /\ (code ev <> AXIS_X_R -> velocity_y c1 = velocity_y c)
  /\ (code ev <> AXIS_X_L -> velocity_yaw c1 = velocity_yaw c)
  /\ (code ev ∉ [BTN_A; BTN_X; BTN_BUMPER_L; BTN_BUMPER_R; BTN_THUMB_L; BTN_THUMB_R] ->
      mode_switch c1 = mode_switch c).
Proof.
  intros self1 Hret Hret1 c c1.
  assert (Hget : forall key, code ev <> key -> _states self1 !! key = _states self !! key).
  { intros key Hne. subst self1. cbn [states_set snd with_states _states].
    apply lookup_insert_ne. exact Hne. }
  assert (Hup : _update_command_buffer self = (Ok tt, snd (_update_command_buffer self)))
    by (rewrite <- Hret; apply surjective_pairing).
  assert (Hup1 : _update_command_buffer self1 = (Ok tt, snd (_update_command_buffer self1)))
    by (rewrite <- Hret1; apply surjective_pairing).
  destruct (update_command_buffer_Ok_inv _ _ Hup) as (Hx & Hy & Hw & _ & Hm).
  destruct (update_command_buffer_Ok_inv _ _ Hup1) as (Hx1 & Hy1 & Hw1 & _ & Hm1).
  change (fst (_normalize_and_apply_deadzone ?r self1))
    with (fst (_normalize_and_apply_deadzone r self)) in Hx1, Hy1, Hw1.
  fold c in Hx, Hy, Hw. fold c1 in Hx1, Hy1, Hw1.
  split; [|split; [|split]].
  - intros Hne. rewrite (Hget _ Hne) in Hx1. congruence.
  - intros Hne. rewrite (Hget _ Hne) in Hy1. congruence.
  - intros Hne. rewrite (Hget _ Hne) in Hw1. congruence.
  - intros Hne. subst c c1. rewrite Hm, Hm1.
    rewrite !(Hget BTN_A), !(Hget BTN_X), !(Hget BTN_BUMPER_L), !(Hget BTN_BUMPER_R),
      !(Hget BTN_THUMB_L), !(Hget BTN_THUMB_R)
      by (intros Heq; apply Hne; rewrite Heq; set_solver +).
    reflexivity.
Qed.

Lemma outputs_depend_on_their_inputs_witness :
  let g0 := fst (Se2Gamepad_init [] None None None) in
  let self := snd (apply_events [ {| code := AXIS_X_R; state := 8192 |} ] g0) in
  let ev := {| code := AXIS_Y_L; state := -16384 |} in
  let self1 := snd (states_set (code ev) (state ev) self) in
  velocity_y (commands (snd (_update_command_buffer self1))) = (-0.25)%float
  /\ velocity_x (commands (snd (_update_command_buffer self1))) = 0.5%float.
Proof.
  intros g0 self ev self1.
  destruct (outputs_depend_on_their_inputs self ev eq_refl eq_refl)
    as (_ & Hy & _ & _).
  split; [|reflexivity].
  change (velocity_y (commands (snd (_update_command_buffer self1)))
          = velocity_y (commands (snd (_update_command_buffer self)))).
  apply Hy. discriminate.
Defined.

(** X6.  A dead zone that is not positive is no dead zone: with
    [dead_zone <= 0] (or NaN) no sample is zeroed, and every axis output
    is [normalized * stick_sensitivity]. *)
Theorem nonpositive_dead_zone_zeroes_nothing
    (self : Se2Gamepad) (raw : option Z) (n : float) :
  normalize_axis (_controller_profile self) raw = Ok n ->
  (0 <? dead_zone self)%float = false ->
  _normalize_and_apply_deadzone raw self
  = (Ok (n * stick_sensitivity self)%float, self).
Proof.
  intros Hn Hz. unfold _normalize_and_apply_deadzone. rewrite Hn. cbn [result_bind].
  replace (abs n <? dead_zone self)%float with false; [reflexivity|].
  symmetry. revert Hz. rewrite !ltb_spec, abs_spec.
  change (Prim2SF 0) with (S754_zero false).
  destruct (Prim2SF n) as [sn|sn| |sn mn en], (Prim2SF (dead_zone self)) as [sz|sz| |sz mz ez];
    cbn; try reflexivity; try discriminate;
    try (destruct sz; (reflexivity || discriminate)).
Qed.

Lemma nonpositive_dead_zone_zeroes_nothing_witness :
  let g := fst (Se2Gamepad_init [] None (Some 0%float) None) in
  _normalize_and_apply_deadzone (Some 1) g = (Ok (-0x1p-15)%float, g).
Proof.
  intros g.
  rewrite (nonpositive_dead_zone_zeroes_nothing g (Some 1) (-0x1p-15)%float
             eq_refl eq_refl).
  reflexivity.
Defined.

End CommandComputerMore.

(* ===================================================================== *)
(** * More on controller detection *)
(* ===================================================================== *)

Lemma prefix_app_iff (s1 s2 : string) :
  String.prefix s1 s2 = true <-> exists rest, s2 = s1 +:+ rest.
Proof.
  revert s2. induction s1 as [|a s1 IH]; intros s2.
  - split; [intros _; exists s2; reflexivity|]. intros _. destruct s2; reflexivity.
  - destruct s2 as [|b s2]; cbn [String.prefix].
    + split; [discriminate|]. intros [rest H]. discriminate H.
    + destruct (ascii_dec a b) as [->|Hne].
      * rewrite IH. split; intros [rest H]; exists rest.
        -- cbn. rewrite H. reflexivity.
        -- cbn in H. inversion H. reflexivity.
      * split; [discriminate|]. intros [rest H]. cbn in H. inversion H. congruence.
Qed.

(** X7.  The name test of the resolver is the substring test: [contains
    needle hay] holds exactly when [hay] is some text, then [needle], then
    some text. *)
Theorem contains_iff_substring (needle hay : string) :
  contains needle hay = true <->
  exists before after, hay = before +:+ needle +:+ after.
Proof.
  induction hay as [|c hay IH]; cbn [contains].
  - rewrite orb_false_r, prefix_app_iff. split.
    + intros [rest H]. exists "", rest. exact H.
    + intros (before & after & H). destruct before as [|b before]; [|discriminate H].
      exists after. exact H.
  - rewrite orb_true_iff, prefix_app_iff, IH. split.
    + intros [[rest H]|(before & after & H)].
      * exists "", rest. exact H.
      * exists (String c before), after. cbn. rewrite H. reflexivity.
    + intros (before & after & H). destruct before as [|b before].
      * left. exists after. exact H.
      * right. cbn in H. inversion H. exists before, after. reflexivity.
Qed.

Lemma contains_iff_substring_witness :
  contains "xbox" "microsoft xbox 360 pad" = true.
Proof.
  apply (proj2 (contains_iff_substring "xbox" "microsoft xbox 360 pad")).
  exists "microsoft ", " 360 pad". reflexivity.
Defined.

(** What the loop body does with the device at the head of the list. *)
Lemma detect_controller_cons (d : InputDevice) (rest : list InputDevice) :
  let n := lower (device_name d) in
  _detect_controller (d :: rest) =
    if (contains "dualsense" n || contains "sony" n)
       && (negb (contains "motion" n) && negb (contains "touchpad" n))
    then (["Detected gamepad: " +:+ device_name d], (Some d, dualsense))
    else if contains "xbox" n || contains "xinput" n
    then (["Detected gamepad: " +:+ device_name d], (Some d, xinput))
    else _detect_controller rest.
Proof.
  cbn [_detect_controller]. cbv zeta.
  destruct (contains "dualsense" (lower (device_name d))
            || contains "sony" (lower (device_name d)));
    destruct (negb (contains "motion" (lower (device_name d)))
              && negb (contains "touchpad" (lower (device_name d))));
    reflexivity.
Qed.

(** X8.  Detection goes by the order of the device list, not by the kind
    of controller: the first device whose name passes one of the two tests
    is bound, with the DualSense profile when it passes the DualSense test
    and with the XInput profile otherwise, whatever follows it in the
    list.  Conversely, no device is bound only when no name passes. *)
Theorem detect_controller_first_match :
  let sony n := (contains "dualsense" n || contains "sony" n)
                && (negb (contains "motion" n) && negb (contains "touchpad" n)) in
  let xbox n := contains "xbox" n || contains "xinput" n in
  (forall (before after : list InputDevice) (d : InputDevice),
     (forall x, x ∈ before ->
        sony (lower (device_name x)) = false /\ xbox (lower (device_name x)) = false) ->
     (sony (lower (device_name d)) = true ->
      _detect_controller (before ++ d :: after)
      = (["Detected gamepad: " +:+ device_name d], (Some d, dualsense)))
     /\ (sony (lower (device_name d)) = false ->
         xbox (lower (device_name d)) = true ->
         _detect_controller (before ++ d :: after)
         = (["Detected gamepad: " +:+ device_name d], (Some d, xinput))))
  /\ (forall devices : list InputDevice,
        fst (snd (_detect_controller devices)) = None ->
        forall x, x ∈ devices ->
          sony (lower (device_name x)) = false /\ xbox (lower (device_name x)) = false).
Proof.
  intros sony xbox. split.
  - intros before after d. induction before as [|x before IH]; intros Hno.
    + cbn [app]. rewrite detect_controller_cons. cbv zeta. fold (sony (lower (device_name d))).
      fold (xbox (lower (device_name d))).
      split; [intros ->; reflexivity|intros -> ->; reflexivity].
    + cbn [app]. rewrite detect_controller_cons. cbv zeta.
      destruct (Hno x ltac:(left)) as [Hs Hx]. unfold sony in Hs. unfold xbox in Hx.
      rewrite Hs, Hx. apply IH. intros y Hy. apply Hno. right. exact Hy.
  - induction devices as [|d rest IH]; intros Hnone x Hx; [inversion Hx|].
    rewrite detect_controller_cons in Hnone. cbv zeta in Hnone.
    fold (sony (lower (device_name d))) in Hnone.
    fold (xbox (lower (device_name d))) in Hnone.
    destruct (sony (lower (device_name d))) eqn:Hs; [discriminate Hnone|].
    destruct (xbox (lower (device_name d))) eqn:Hxb; [discriminate Hnone|].
    apply elem_of_cons in Hx. destruct Hx as [->|Hx]; [split; assumption|].
    exact (IH Hnone x Hx).
Qed.

Lemma detect_controller_first_match_witness :
  let pad := {| device_name := "Logitech Gamepad F310" |} in
  let xbox := {| device_name := "Xbox Wireless Controller" |} in
  let ps5 := {| device_name := "DualSense Wireless Controller" |} in
  _detect_controller [pad; xbox; ps5]
  = (["Detected gamepad: Xbox Wireless Controller"], (Some xbox, xinput)).
Proof.
  intros pad xbox ps5.
  refine (proj2 (proj1 detect_controller_first_match [pad] [ps5] xbox _) _ _);
    [|reflexivity|reflexivity].
  intros x Hx. apply list_elem_of_singleton in Hx. subst x. split; reflexivity.
Defined.

(* ===================================================================== *)
(** * More on the polling loop *)
(* ===================================================================== *)

Section PollingLoopMore.
Import XInputEntry.

(** The read primitive a cycle uses: the bound device's, or the default. *)
Lemma read_events_used (env : reader) (self : Se2Gamepad) :
  exists r, read_events env self = (Ok r, self)
            /\ (r = get_gamepad env \/ exists d, r = device_read env d).
Proof.
  unfold read_events. destruct (_gamepad_device self) as [d|]; eauto.
Qed.

Lemma advance_after (env : reader) (self : Se2Gamepad) :
  after (advance env self) = snd (advance_body env self).
Proof.
  unfold advance. destruct (advance_body env self) as [[u|e] self1]; [reflexivity|].
  destruct (isinstance_Exception e); reflexivity.
Qed.

Lemma update_command_buffer_shape (self : Se2Gamepad) :
  exists c, snd (_update_command_buffer self) = with_commands c self.
Proof.
  rewrite update_command_buffer_unfold. cbv zeta.
  destruct (fst (_normalize_and_apply_deadzone (_states self !! AXIS_Y_L) self)).
  2:{ exists (commands self). destruct self; reflexivity. }
  destruct (fst (_normalize_and_apply_deadzone (_states self !! AXIS_X_R) self));
    [|eexists; reflexivity].
  destruct (fst (_normalize_and_apply_deadzone (_states self !! AXIS_X_L) self));
    eexists; reflexivity.
Qed.

(** A cycle rewrites the raw state and the snapshot, nothing else. *)
Lemma advance_body_shape (env : reader) (self : Se2Gamepad) :
  exists st c, snd (advance_body env self) = with_commands c (with_states st self).
Proof.
  unfold advance_body, method_bind.
  destruct (read_events_used env self) as (r & -> & _).
  rewrite apply_events_fold.
  destruct (failure r) as [e|].
  - unfold method_raise. cbn [snd]. do 2 eexists. reflexivity.
  - destruct (update_command_buffer_shape
                (with_states (foldl (fun st ev => <[code ev := state ev]> st)
                                    (_states self) (yielded r)) self)) as [c ->].
    do 2 eexists. reflexivity.
Qed.

(** X9.  The loop never reconfigures the object.  However long it runs
    and whatever the reads answer, [stick_sensitivity], [dead_zone],
    [debug], the controller profile and the bound device are at the end
    what they were at the start; only the raw state, the snapshot and the
    stop flag can differ. *)
Theorem run_forever_keeps_configuration (script : list tick) (self : Se2Gamepad) :
  let g := final (run_forever script self) in
  stick_sensitivity g = stick_sensitivity self
  /\ dead_zone g = dead_zone self
  /\ debug g = debug self
  /\ _controller_profile g = _controller_profile self
  /\ _gamepad_device g = _gamepad_device self.
Proof.
  cbv zeta. revert self. induction script as [|t script IH]; intros self; [repeat split|].
  cbn [run_forever].
  set (self0 := if stop_called t then with_stopped true self else self).
  assert (H0 : stick_sensitivity self0 = stick_sensitivity self
               /\ dead_zone self0 = dead_zone self /\ debug self0 = debug self
               /\ _controller_profile self0 = _controller_profile self
               /\ _gamepad_device self0 = _gamepad_device self)
    by (subst self0; destruct (stop_called t); repeat split).
  destruct (_stopped self0); [exact H0|].
  assert (H1 : stick_sensitivity (after (advance (env_of t) self0)) = stick_sensitivity self0
               /\ dead_zone (after (advance (env_of t) self0)) = dead_zone self0
               /\ debug (after (advance (env_of t) self0)) = debug self0
               /\ _controller_profile (after (advance (env_of t) self0))
                  = _controller_profile self0
               /\ _gamepad_device (after (advance (env_of t) self0)) = _gamepad_device self0).
  { rewrite advance_after.
    destruct (advance_body_shape (env_of t) self0) as (st & c & ->). repeat split. }
  destruct (propagated (advance (env_of t) self0)); cbn [final].
  - destruct H0 as (?&?&?&?&?), H1 as (?&?&?&?&?). repeat split; congruence.
  - specialize (IH (after (advance (env_of t) self0))).
    destruct H0 as (?&?&?&?&?), H1 as (?&?&?&?&?), IH as (?&?&?&?&?).
    repeat split; congruence.
Qed.

(** X10.  Failed reads leave everything stale.  While every read fails at
    once with an exception of class [Exception] and no stop is requested,
    the loop keeps cycling and the object stays exactly as it was: raw
    state and snapshot are those from before the first failure. *)
Theorem failed_reads_leave_object (script : list tick) (self : Se2Gamepad) :
  _stopped self = false ->
  (forall t, t ∈ script ->
     stop_called t = false
     /\ forall r, r = get_gamepad (env_of t) \/ (exists d, r = device_read (env_of t) d) ->
          yielded r = []
          /\ exists e, failure r = Some e /\ isinstance_Exception e = true) ->
  final (run_forever script self) = self
  /\ iterations (run_forever script self) = length script
  /\ status (run_forever script self) = Running.
Proof.
  intros Hrun Hscript. induction script as [|t script IH]; [repeat split|].
  destruct (Hscript t ltac:(left)) as [Hstop Hrd].
  cbn [run_forever]. rewrite Hstop. cbv zeta. rewrite Hrun.
  assert (Hadv : propagated (advance (env_of t) self) = None
                 /\ after (advance (env_of t) self) = self).
  { unfold advance, advance_body, method_bind.
    destruct (read_events_used (env_of t) self) as (r & -> & Hr).
    destruct (Hrd r Hr) as (Hy & e & Hf & He). rewrite Hy, Hf.
    cbn [apply_events method_ret method_raise]. rewrite He. split; reflexivity. }
  destruct Hadv as [-> ->]. cbn [final iterations status length].
  destruct IH as (H1 & H2 & H3);
    [intros t' Ht'; apply Hscript; right; exact Ht'|].
  repeat split; congruence.
Qed.

Lemma failed_reads_leave_object_witness :
  let unplugged :=
    {| device_read := fun _ => {| yielded := [];
                                  failure := Some (Exception_ "OSError" "No such device") |};
       get_gamepad :=
         {| yielded := [];
            failure := Some (Exception_ "UnpluggedError" "No gamepad found.") |} |} in
  let script := [ {| stop_called := false; env_of := unplugged |};
                  {| stop_called := false; env_of := unplugged |} ] in
  let self := fst (Se2Gamepad_init [] None None None) in
  commands (final (run_forever script self)) = zero_commands
  /\ iterations (run_forever script self) = 2%nat.
Proof.
  intros unplugged script self.
  destruct (failed_reads_leave_object script self eq_refl) as (Hf & Hi & _).
  { intros t Ht.
    repeat (apply elem_of_cons in Ht; destruct Ht as [->|Ht]);
      [| |inversion Ht]; (split; [reflexivity|]);
      intros r [->|[d ->]]; (split; [reflexivity|]); eexists; split; reflexivity. }
  rewrite Hf. split; [reflexivity|exact Hi].
Defined.

(** X11.  The mode code stays in its range.  If [mode_switch] is one of
    0, 1, 2, 3 when the loop starts, as it is on a new object, it is one of
    them whenever the loop is left, whatever the reads answered. *)
Theorem run_forever_mode_in_range (script : list tick) (self : Se2Gamepad) :
  0 <= mode_switch (commands self) <= 3 ->
  0 <= mode_switch (commands (final (run_forever script self))) <= 3.
Proof.
  assert (Hup : forall g, 0 <= mode_switch (commands g) <= 3 ->
            0 <= mode_switch (commands (snd (_update_command_buffer g))) <= 3).
  { intros g Hg. rewrite update_command_buffer_unfold. cbv zeta.
    destruct (fst (_normalize_and_apply_deadzone (_states g !! AXIS_Y_L) g)); [|exact Hg].
    destruct (fst (_normalize_and_apply_deadzone (_states g !! AXIS_X_R) g)); [|exact Hg].
    destruct (fst (_normalize_and_apply_deadzone (_states g !! AXIS_X_L) g)); [|exact Hg].
    cbn [snd commands with_commands mode_switch].
    destruct (truthy (_states g !! BTN_X) || truthy (_states g !! BTN_THUMB_L)
              || truthy (_states g !! BTN_THUMB_R)); [lia|].
    destruct (truthy (_states g !! BTN_A) && truthy (_states g !! BTN_BUMPER_L)); [lia|].
    destruct (truthy (_states g !! BTN_A) && truthy (_states g !! BTN_BUMPER_R)); lia. }
  assert (Hadv : forall env g, 0 <= mode_switch (commands g) <= 3 ->
            0 <= mode_switch (commands (after (advance env g))) <= 3).
  { intros env g Hg. rewrite advance_after. unfold advance_body, method_bind.
    destruct (read_events_used env g) as (r & -> & _).
    rewrite apply_events_fold.
    destruct (failure r); [exact Hg|]. apply Hup. exact Hg. }
  revert self. induction script as [|t script IH]; intros self Hself; [exact Hself|].
  cbn [run_forever].
  set (self0 := if stop_called t then with_stopped true self else self).
  assert (H0 : 0 <= mode_switch (commands self0) <= 3)
    by (subst self0; destruct (stop_called t); exact Hself).
  destruct (_stopped self0); [exact H0|].
  destruct (propagated (advance (env_of t) self0)); cbn [final].
  - apply Hadv, H0.
  - apply IH, Hadv, H0.
Qed.

Lemma run_forever_mode_in_range_witness :
  let env :=
    {| device_read := fun _ => {| yielded := []; failure := None |};
       get_gamepad := {| yielded := [ {| code := BTN_X; state := -1 |} ];
                         failure := None |} |} in
  let self := fst (Se2Gamepad_init [] None None None) in
  0 <= mode_switch (commands (final (run_forever
                                       [ {| stop_called := false; env_of := env |} ] self))) <= 3.
Proof.
  intros env self. apply run_forever_mode_in_range. vm_compute. split; discriminate.
Defined.

(** X12.  [stop] ends the loop at the next look at the flag.  If the
    first request to stop arrives before the loop condition of some
    iteration is evaluated, the loop has completed exactly the iterations
    before it, runs no cycle after it, and the object is left as the last
    completed cycle left it, with the flag set.  In particular a loop
    started on a stopped object runs no cycle at all. *)
Theorem stop_ends_loop (earlier later : list tick) (t : tick) (self : Se2Gamepad) :
  (forall t', t' ∈ earlier ->
     stop_called t' = false
     /\ forall e, failure (get_gamepad (env_of t')) = Some e \/
                  (exists d, failure (device_read (env_of t') d) = Some e) ->
                  isinstance_Exception e = true) ->
  _stopped self = true \/ stop_called t = true ->
  status (run_forever (earlier ++ t :: later) self) = Stopped
  /\ iterations (run_forever (earlier ++ t :: later) self)
     = (if _stopped self then 0%nat else length earlier)
  /\ final (run_forever (earlier ++ t :: later) self)
     = (if _stopped self
        then (if stop_called (hd t earlier) then with_stopped true self else self)
        else with_stopped true (final (run_forever earlier self))).
Proof.
  revert self. induction earlier as [|t0 earlier IH]; intros self Hbefore Hstop.
  - cbn [app run_forever hd length]. destruct (stop_called t) eqn:Ht.
    + cbn [_stopped with_stopped]. destruct (_stopped self); repeat split.
    + destruct Hstop as [Hs|Hs]; [|discriminate Hs]. rewrite Hs. repeat split.
  - cbn [app run_forever hd length].
    destruct (Hbefore t0 ltac:(left)) as [Hs0 Hrd]. rewrite Hs0.
    destruct (_stopped self) eqn:Hself; [repeat split|].
    destruct (advance_returns (env_of t0) self Hrd) as (Hprop & _ & Hstopped & _).
    rewrite Hprop.
    destruct (IH (after (advance (env_of t0) self))) as (H1 & H2 & H3).
    + intros t' Ht'. apply Hbefore. right. exact Ht'.
    + destruct Hstop as [Hs|Hs]; [congruence|right; exact Hs].
    + rewrite Hstopped, Hself in H2, H3. cbn [status iterations final].
      rewrite H1, H2, H3. repeat split.
Qed.

Lemma stop_ends_loop_witness :
  let env :=
    {| device_read := fun _ => {| yielded := []; failure := None |};
       get_gamepad := {| yielded := [ {| code := AXIS_Y_L; state := -16384 |} ];
                         failure := None |} |} in
  let go := {| stop_called := false; env_of := env |} in
  let halt := {| stop_called := true; env_of := env |} in
  let self := fst (Se2Gamepad_init [] None None None) in
  status (run_forever [go; go; halt; go] self) = Stopped
  /\ iterations (run_forever [go; go; halt; go] self) = 2%nat.
Proof.
  intros env go halt self.
  destruct (stop_ends_loop [go; go] [go] halt self) as (Hs & Hi & _).
  - intros t' Ht'.
    repeat (apply elem_of_cons in Ht'; destruct Ht' as [->|Ht']);
      [| |inversion Ht']; (split; [reflexivity|]); cbn; intros e [H|[d H]];
      discriminate H.
  - right. reflexivity.
  - split; [exact Hs|exact Hi].
Defined.

(** X13.  Running the loop over one script and then over another is
    running it over both: while the first part leaves the loop running,
    the second part continues from the object the first part left, and
    outputs and iteration counts add up; once the first part has stopped
    or crashed, the rest of the script is never looked at. *)
Theorem run_forever_app (s1 s2 : list tick) (self : Se2Gamepad) :
  let r1 := run_forever s1 self in
  let r2 := run_forever s2 (final r1) in
  run_forever (s1 ++ s2) self =
    match status r1 with
    | Running =>
        {| final := final r2; output := output r1 ++ output r2;
           iterations := (iterations r1 + iterations r2)%nat; status := status r2 |}
    | _ => r1
    end.
Proof.
  cbv zeta. revert self. induction s1 as [|t s1 IH]; intros self.
  - cbn [app run_forever status final output iterations]. cbn.
    destruct (run_forever s2 self); reflexivity.
  - cbn [app run_forever].
    set (self0 := if stop_called t then with_stopped true self else self).
    destruct (_stopped self0); [reflexivity|].
    destruct (propagated (advance (env_of t) self0)); [reflexivity|].
    rewrite IH. cbn [status final output iterations].
    destruct (status (run_forever s1 (after (advance (env_of t) self0)))) eqn:Hs;
      cbn [final output iterations status]; rewrite ?Hs, ?app_assoc; reflexivity.
Qed.

(** A sample below [2^53] in magnitude. *)
Lemma small_states_insert (st : gmap string Z) (events : list event) :
  map_Forall (fun _ z => - 2 ^ 53 < z < 2 ^ 53) st ->
  (forall ev, ev ∈ events -> - 2 ^ 53 < state ev < 2 ^ 53) ->
  map_Forall (fun _ z => - 2 ^ 53 < z < 2 ^ 53)
             (foldl (fun st ev => <[code ev := state ev]> st) st events).
Proof.
  revert st. induction events as [|ev rest IH]; intros st Hst Hev; [exact Hst|].
  cbn [foldl]. apply IH.
  - apply map_Forall_insert_2; [apply Hev; left|exact Hst].
  - intros ev' Hev'. apply Hev. right. exact Hev'.
Qed.

(** X14.  On well-formed input the loop is silent and never fails.  With
    a profile whose range is not zero, a raw state whose samples are below
    [2^53] in magnitude (every 32-bit event value is), and reads that
    succeed and deliver such samples, no cycle raises: nothing is printed
    even with [debug] on, the loop does not crash, and the raw state keeps
    its samples below [2^53]. *)
Theorem run_forever_silent (script : list tick) (self : Se2Gamepad) :
  (max_range (_controller_profile self) =? 0)%float = false ->
  map_Forall (fun _ z => - 2 ^ 53 < z < 2 ^ 53) (_states self) ->
  (forall t, t ∈ script ->
     forall r, r = get_gamepad (env_of t) \/ (exists d, r = device_read (env_of t) d) ->
       failure r = None
       /\ forall ev, ev ∈ yielded r -> - 2 ^ 53 < state ev < 2 ^ 53) ->
  output (run_forever script self) = []
  /\ (forall e, status (run_forever script self) <> Crashed e)
  /\ map_Forall (fun _ z => - 2 ^ 53 < z < 2 ^ 53)
                (_states (final (run_forever script self))).
Proof.
  revert self. induction script as [|t script IH]; intros self Hm Hst Hscript.
  - cbn [run_forever output status final].
    split; [reflexivity|]. split; [discriminate|exact Hst].
  - cbn [run_forever].
    set (self0 := if stop_called t then with_stopped true self else self).
    assert (Hm0 : (max_range (_controller_profile self0) =? 0)%float = false)
      by (subst self0; destruct (stop_called t); exact Hm).
    assert (Hst0 : map_Forall (fun _ z => - 2 ^ 53 < z < 2 ^ 53) (_states self0))
      by (subst self0; destruct (stop_called t); exact Hst).
    destruct (_stopped self0).
    { cbn [output status final]. split; [reflexivity|]. split; [discriminate|exact Hst0]. }
    assert (Hadv : propagated (advance (env_of t) self0) = None
                   /\ printed (advance (env_of t) self0) = []
                   /\ _controller_profile (after (advance (env_of t) self0))
                      = _controller_profile self0
                   /\ map_Forall (fun _ z => - 2 ^ 53 < z < 2 ^ 53)
                                 (_states (after (advance (env_of t) self0)))).
    { unfold advance, advance_body, method_bind.
      destruct (read_events_used (env_of t) self0) as (r & -> & Hr).
      destruct (Hscript t ltac:(left) r Hr) as [Hf Hev]. rewrite Hf.
      rewrite apply_events_fold.
      set (self1 := with_states _ self0).
      assert (Hst1 : map_Forall (fun _ z => - 2 ^ 53 < z < 2 ^ 53) (_states self1))
        by (subst self1; cbn [_states with_states]; apply small_states_insert; assumption).
      destruct (update_command_buffer_returns self1) as [self2 Hup];
        [exact Hm0| |].
      { intros key z _ Hkey. exact (Hst1 key z Hkey). }
      rewrite Hup. cbn [after printed propagated].
      destruct (update_command_buffer_Ok_inv _ _ Hup) as (_ & _ & _ & Hsame & _).
      destruct (update_command_buffer_shape self1) as [c Hshape].
      rewrite Hup in Hshape. cbn [snd] in Hshape.
      split; [reflexivity|]. split; [reflexivity|].
      split; [rewrite Hshape; reflexivity|rewrite Hsame; exact Hst1]. }
    destruct Hadv as (-> & -> & Hprof & Hst').
    cbn [output status final].
    destruct (IH (after (advance (env_of t) self0))) as (H1 & H2 & H3).
    + rewrite Hprof. exact Hm0.
    + exact Hst'.
    + intros t' Ht'. apply Hscript. right. exact Ht'.
    + rewrite H1. split; [reflexivity|]. split; assumption.
Qed.

Lemma run_forever_silent_witness :
  let env :=
    {| device_read := fun _ => {| yielded := [ {| code := AXIS_X_L; state := 255 |} ];
                                  failure := None |};
       get_gamepad := {| yielded := []; failure := None |} |} in
  let self :=
    fst (Se2Gamepad_init [ {| device_name := "DualSense Wireless Controller" |} ]
                         None None (Some true)) in
  output (run_forever [ {| stop_called := false; env_of := env |} ] self) = [].
Proof.
  intros env self.
  refine (proj1 (run_forever_silent _ self eq_refl _ _)).
  - apply map_Forall_lookup_2. intros key z Hkey.
    change (reset_states !! key = Some z) in Hkey. unfold reset_states in Hkey.
    apply elem_of_list_to_map_2 in Hkey.
    apply list_elem_of_fmap in Hkey. destruct Hkey as (k & [= -> ->] & _). lia.
  - intros t Ht. apply list_elem_of_singleton in Ht. subst t.
    intros r [->|[d ->]]; (split; [reflexivity|]); cbn; intros ev Hev.
    + inversion Hev.
    + apply list_elem_of_singleton in Hev. subst ev. cbn. lia.
Defined.

End PollingLoopMore.

(* ===================================================================== *)
(** * The built-in profiles in numbers *)
(* ===================================================================== *)

Section BuiltinProfiles.

Lemma xinput_inversion_checked :
  check_from (fun d => match normalize_axis xinput (Some (- d)),
                             normalize_axis xinput (Some d) with
                       | Ok n, Ok n' => (Leibniz.eqb n' (- n) && (0 <? n))%float
                       | _, _ => false
                       end) 1 (Z.to_nat 32768) = true.
Proof. vm_compute. reflexivity. Qed.

Lemma dualsense_inversion_checked :
  check_from (fun d => match normalize_axis dualsense (Some (128 - d)),
                             normalize_axis dualsense (Some (128 + d)) with
                       | Ok n, Ok n' => (Leibniz.eqb n' (- n) && (0 <? n))%float
                       | _, _ => false
                       end) 1 (Z.to_nat 128) = true.
Proof. vm_compute. reflexivity. Qed.

(** X15.  Inversion of the built-in profiles.  A sample below the center
    normalizes to a positive value and the sample as far above the center
    to exactly its negation: for [d] in [1 .. 32768] around [0] under the
    XInput profile, and for [d] in [1 .. 128] around [128] under the
    DualSense profile. *)
Theorem builtin_profiles_invert (d : Z) :
  (1 <= d <= 32768 ->
   exists n, normalize_axis xinput (Some (- d)) = Ok n
             /\ normalize_axis xinput (Some d) = Ok (- n)%float
             /\ (0 <? n)%float = true)
  /\ (1 <= d <= 128 ->
      exists n, normalize_axis dualsense (Some (128 - d)) = Ok n
                /\ normalize_axis dualsense (Some (128 + d)) = Ok (- n)%float
                /\ (0 <? n)%float = true).
Proof.
  split; intros Hd.
  - pose proof (check_from_spec _ _ _ xinput_inversion_checked d) as H.
    cbv beta in H. rewrite Z2Nat.id in H by lia. specialize (H ltac:(lia)).
    destruct (normalize_axis xinput (Some (- d))) as [n|]; [|discriminate H].
    destruct (normalize_axis xinput (Some d)) as [n'|]; [|discriminate H].
    apply andb_prop in H. destruct H as [He Hp].
    apply FloatAxioms.Leibniz.eqb_spec in He. subst n'. exists n. auto.
  - pose proof (check_from_spec _ _ _ dualsense_inversion_checked d) as H.
    cbv beta in H. rewrite Z2Nat.id in H by lia. specialize (H ltac:(lia)).
    destruct (normalize_axis dualsense (Some (128 - d))) as [n|]; [|discriminate H].
    destruct (normalize_axis dualsense (Some (128 + d))) as [n'|]; [|discriminate H].
    apply andb_prop in H. destruct H as [He Hp].
    apply FloatAxioms.Leibniz.eqb_spec in He. subst n'. exists n. auto.
Qed.

Lemma builtin_profiles_invert_witness :
  exists n, normalize_axis dualsense (Some 0) = Ok n
            /\ normalize_axis dualsense (Some 256) = Ok (- n)%float
            /\ (0 <? n)%float = true.
Proof. apply (proj2 (builtin_profiles_invert 128)). lia. Defined.

Lemma xinput_dead_zone_checked :
  check_from
    (fun raw =>
       match fst (_normalize_and_apply_deadzone
                    (Some raw) (fst (Se2Gamepad_init [] None None None))) with
       | Ok v => Bool.eqb (v =? 0)%float ((-327 <=? raw) && (raw <=? 327))
       | Raise _ => false
       end) (-32768) (Z.to_nat 65537) = true.
Proof. vm_compute. reflexivity. Qed.

Lemma dualsense_dead_zone_checked :
  check_from
    (fun raw =>
       match fst (_normalize_and_apply_deadzone
                    (Some raw)
                    (fst (Se2Gamepad_init
                            [ {| device_name := "DualSense Wireless Controller" |} ]
                            None None None))) with
       | Ok v => Bool.eqb (v =? 0)%float ((127 <=? raw) && (raw <=? 129))
       | Raise _ => false
       end) 0 (Z.to_nat 257) = true.
Proof. vm_compute. reflexivity. Qed.

(** X16.  The width of the default dead zone in raw units.  With the
    default configuration ([dead_zone = 0.01], [stick_sensitivity = 1.0]),
    an XInput axis sample in [-32768 .. 32768] gives a zero output exactly
    when it lies in [-327 .. 327], and a DualSense axis sample in
    [0 .. 256] exactly when it lies in [127 .. 129]. *)
Theorem default_dead_zone_width (raw : Z) :
  let gx := fst (Se2Gamepad_init [] None None None) in
  let gd := fst (Se2Gamepad_init
                   [ {| device_name := "DualSense Wireless Controller" |} ]
                   None None None) in
  (-32768 <= raw <= 32768 ->
   exists v, fst (_normalize_and_apply_deadzone (Some raw) gx) = Ok v
             /\ ((v =? 0)%float = true <-> -327 <= raw <= 327))
  /\ (0 <= raw <= 256 ->
      exists v, fst (_normalize_and_apply_deadzone (Some raw) gd) = Ok v
                /\ ((v =? 0)%float = true <-> 127 <= raw <= 129)).
Proof.
  intros gx gd. split; intros Hraw.
  - pose proof (check_from_spec _ _ _ xinput_dead_zone_checked raw) as H.
    cbv beta in H. rewrite Z2Nat.id in H by lia. specialize (H ltac:(lia)).
    fold gx in H.
    destruct (fst (_normalize_and_apply_deadzone (Some raw) gx)) as [v|];
      [|discriminate H].
    exists v. split; [reflexivity|]. apply Bool.eqb_prop in H. rewrite H.
    rewrite andb_true_iff, !Z.leb_le. reflexivity.
  - pose proof (check_from_spec _ _ _ dualsense_dead_zone_checked raw) as H.
    cbv beta in H. rewrite Z2Nat.id in H by lia. specialize (H ltac:(lia)).
    fold gd in H.
    destruct (fst (_normalize_and_apply_deadzone (Some raw) gd)) as [v|];
      [|discriminate H].
    exists v. split; [reflexivity|]. apply Bool.eqb_prop in H. rewrite H.
    rewrite andb_true_iff, !Z.leb_le. reflexivity.
Qed.

Lemma default_dead_zone_width_witness :
  let gx := fst (Se2Gamepad_init [] None None None) in
  exists v, fst (_normalize_and_apply_deadzone (Some 328) gx) = Ok v
            /\ (v =? 0)%float <> true.
Proof.
  intros gx.
  destruct (proj1 (default_dead_zone_width 328) ltac:(lia)) as (v & Hv & Hz).
  exists v. split; [exact Hv|]. intros H. apply Hz in H. lia.
Defined.

End BuiltinProfiles.

(* ===================================================================== *)
(** * Full deflection *)
(* ===================================================================== *)

(** Multiplying by [1.0] or [-1.0] is exact. *)
Lemma iter_xO_value (m k : positive) :
  Zpos (Pos.iter xO m k) = Zpos m * 2 ^ Zpos k.
Proof.
  induction k as [|k IH] using Pos.peano_ind.
  - cbn. lia.
  - rewrite Pos.iter_succ, Pos2Z.inj_xO, IH, Pos2Z.inj_succ, Z.pow_succ_r by lia. lia.
Qed.

Lemma binary_round_aux_scaled (s : bool) (m : positive) (e : Z) :
  valid_binary (S754_finite s m e) = true ->
  binary_round_aux prec emax s (Zpos (4503599627370496 * m)) (-52 + e) loc_Exact
  = S754_finite s m e.
Proof.
  intros Hv. destruct (FloatFacts.valid_finite_inv _ _ _ Hv) as (Hcan & He & _).
  replace (4503599627370496 * m)%positive with (Pos.iter xO m 52) by reflexivity.
  assert (HP : Zpos (Pos.iter xO m 52) = Zpos m * 2 ^ 52) by apply iter_xO_value.
  assert (H252 : 0 < 2 ^ 52) by lia.
  unfold binary_round_aux, shr_fexp.
  replace (fexp prec emax (Zdigits2 (Zpos (Pos.iter xO m 52)) + (-52 + e)) - (-52 + e))
    with 52.
  2:{ cbn [Zdigits2]. rewrite FloatFacts.digits2_pos_iter.
      rewrite Pos2Z.inj_add.
      replace (Zpos (digits2_pos m) + 52 + (-52 + e)) with (Zpos (digits2_pos m) + e) by lia.
      rewrite Hcan. lia. }
  destruct (FloatFacts.shr_exact_spec (Zpos (Pos.iter xO m 52)) (-52 + e) 52 ltac:(lia))
    as (He1 & Hm1 & Hloc1).
  destruct (shr (shr_record_of_loc (Zpos (Pos.iter xO m 52)) loc_Exact) (-52 + e) 52)
    as [mrs1 e1].
  cbn [fst snd] in He1, Hm1, Hloc1.
  replace (Z.max 52 0) with 52 in * by lia.
  rewrite HP in Hm1, Hloc1.
  rewrite Z.div_mul in Hm1 by lia. rewrite Z.mod_mul in Hloc1 by lia.
  rewrite Hm1, (Hloc1 eq_refl). cbn [round_nearest_even].
  replace e1 with e by lia.
  replace (fexp prec emax (Zdigits2 (Zpos m) + e) - e) with 0
    by (cbn [Zdigits2]; rewrite Hcan; lia).
  cbn [shr shr_record_of_loc shr_m].
  replace (e <=? emax - prec) with true
    by (symmetry; apply Z.leb_le; unfold emax, prec; lia).
  reflexivity.
Qed.

Lemma mul_unit_l (b : bool) (s : float) :
  ((if b then -1 else 1) * s)%float = (if b then - s else s)%float.
Proof.
  apply Prim2SF_inj. rewrite mul_spec.
  replace (Prim2SF (if b then -1 else 1)%float)
    with (S754_finite b 4503599627370496 (-52)) by (destruct b; reflexivity).
  replace (Prim2SF (if b then - s else s)%float)
    with (if b then SFopp (Prim2SF s) else Prim2SF s)
    by (destruct b; [rewrite opp_spec|]; reflexivity).
  pose proof (Prim2SF_valid s) as Hv.
  destruct (Prim2SF s) as [ss|ss| |ss ms es]; try (destruct b, ss; reflexivity).
  - destruct b; reflexivity.
  - unfold SF64mul, SFmul.
    destruct b; cbn [xorb SFopp].
    + apply binary_round_aux_scaled. exact Hv.
    + apply binary_round_aux_scaled. exact Hv.
Qed.

(** X17.  The sensitivity is the velocity at full deflection.  When the
    dead zone does not exceed 1, a sample that normalizes to [1.0] gives
    exactly [stick_sensitivity] and one that normalizes to [-1.0] exactly
    [-stick_sensitivity], whatever float the sensitivity is; the XInput
    sample [-32768] and the DualSense sample [0] normalize to [1.0]. *)
Theorem full_deflection_gives_sensitivity (self : Se2Gamepad) (raw : option Z) :
  (1 <? dead_zone self)%float = false ->
  (normalize_axis (_controller_profile self) raw = Ok 1%float ->
   _normalize_and_apply_deadzone raw self = (Ok (stick_sensitivity self), self))
  /\ (normalize_axis (_controller_profile self) raw = Ok (-1)%float ->
      _normalize_and_apply_deadzone raw self
      = (Ok (- stick_sensitivity self)%float, self)).
Proof.
  intros Hz. unfold _normalize_and_apply_deadzone. split; intros ->; cbn [result_bind].
  - change (abs 1)%float with 1%float. rewrite Hz.
    rewrite (mul_unit_l false). reflexivity.
  - change (abs (-1))%float with 1%float. rewrite Hz.
    rewrite (mul_unit_l true). reflexivity.
Qed.

Lemma full_deflection_gives_sensitivity_witness :
  let gx := fst (Se2Gamepad_init [] (Some 0.75%float) None None) in
  let gd := fst (Se2Gamepad_init
                   [ {| device_name := "DualSense Wireless Controller" |} ]
                   (Some 0.75%float) None None) in
  _normalize_and_apply_deadzone (Some (-32768)) gx = (Ok 0.75%float, gx)
  /\ _normalize_and_apply_deadzone (Some 0) gd = (Ok 0.75%float, gd).
Proof.
  intros gx gd. split.
  - exact (proj1 (full_deflection_gives_sensitivity gx (Some (-32768)) eq_refl) eq_refl).
  - exact (proj1 (full_deflection_gives_sensitivity gd (Some 0) eq_refl) eq_refl).
Defined.
